(** * Comfy Masking API: a shallow embedding of [app.py]

    The gateway uploads an image to a remote workflow engine, binds the
    uploaded name into a job graph, queues the graph, polls the history
    route until an output node reports images, downloads the first image
    and streams it back under the caller's file name.

    Conventions of the embedding:
    - JSON documents ([json.load], [r.json()]) are the inductive [json];
      a Python dict is an association list in insertion order, whose keys
      are strings and, for a dict built by the JSON decoder, distinct;
    - Python exceptions are the inductive [exn]; code that can raise lives
      in the monad [M], which threads the [world] (clock, request counter
      and the trace of network calls and sleeps);
    - the clock counts milliseconds in [Z]; [time.sleep(2)] is
      [sleep 2000], and the two polling settings are held in milliseconds,
      the timeout being any float, [inf] included;
    - a character of a [string] is a Unicode code point below 256;
      whitespace is what [str.isspace] accepts on that range, decimal
      digits there are the ASCII ones. *)

From Stdlib Require Import ZArith List String Ascii Bool Lia.
From Stdlib.Strings Require Import Byte.
From Stdlib Require Import DecimalString DecimalPos DecimalZ.
Import ListNotations.

Local Open Scope string_scope.
Local Open Scope Z_scope.

(** ** Python strings *)

Module PyStr.

Definition is_empty (s : string) : bool :=
  match s with EmptyString => true | String _ _ => false end.

(** [str.isspace] on the code points below 256: TAB..CR, FS..US, the
    blank, NEL (U+0085) and the no-break space (U+00A0). *)
Definition is_space (c : ascii) : bool :=
  let n := nat_of_ascii c in
  ((9 <=? n) && (n <=? 13))%nat || ((28 <=? n) && (n <=? 32))%nat
  || (n =? 133)%nat || (n =? 160)%nat.

(** The whitespace [int] skips around a literal: the C whitespace
    (TAB..CR and the blank) and the Unicode spaces above ASCII; FS..US
    are not skipped. *)
Definition is_int_space (c : ascii) : bool :=
  let n := nat_of_ascii c in
  ((9 <=? n) && (n <=? 13))%nat || (n =? 32)%nat
  || (n =? 133)%nat || (n =? 160)%nat.

Definition is_slash (c : ascii) : bool := Ascii.eqb c "/".

(** [s.rstrip(chars)]: drop the longest suffix made of stripped
    characters. *)
Fixpoint rstrip_by (p : ascii -> bool) (s : string) : string :=
  match s with
  | EmptyString => EmptyString
  | String c r =>
      let r' := rstrip_by p r in
      if is_empty r' && p c then EmptyString else String c r'
  end.

Fixpoint lstrip_by (p : ascii -> bool) (s : string) : string :=
  match s with
  | EmptyString => EmptyString
  | String c r => if p c then lstrip_by p r else s
  end.

(** [s.rstrip('/')] *)
Definition rstrip_slash (s : string) : string := rstrip_by is_slash s.

(** [s.strip()] *)
Definition strip (s : string) : string :=
  lstrip_by is_space (rstrip_by is_space s).

(** [a in b] for two strings. *)
Fixpoint contains (needle hay : string) : bool :=
  prefix needle hay ||
  match hay with
  | EmptyString => false
  | String _ r => contains needle r
  end.

(** [str(n)] for an integer. *)
Definition of_Z (n : Z) : string := NilZero.string_of_int (Z.to_int n).

Definition is_digit (c : ascii) : bool :=
  let n := nat_of_ascii c in ((48 <=? n) && (n <=? 57))%nat.

Definition digit_val (c : ascii) : Z := Z.of_nat (nat_of_ascii c) - 48.

(** The digit part of an integer literal accepted by [int(s)]: decimal
    digits, single underscores allowed between two digits. *)
Fixpoint digits_from (acc : Z) (after_digit : bool) (s : string)
  : option Z :=
  match s with
  | EmptyString => if after_digit then Some acc else None
  | String c r =>
      if is_digit c then digits_from (10 * acc + digit_val c) true r
      else if Ascii.eqb c "_" && after_digit then digits_from acc false r
      else None
  end.

Fixpoint digit_count (s : string) : nat :=
  match s with
  | EmptyString => O
  | String c r => if is_digit c then S (digit_count r) else digit_count r
  end.

(** [int(s)]: surrounding whitespace is dropped, one sign is allowed, and
    a literal of more than 4300 digits is refused (the default limit of
    the interpreter); [None] stands for the [ValueError]. *)
Definition to_int (s : string) : option Z :=
  let t := lstrip_by is_int_space (rstrip_by is_int_space s) in
  if (4300 <? digit_count t)%nat then None
  else match t with
       | String "+" r => digits_from 0 false r
       | String "-" r => option_map Z.opp (digits_from 0 false r)
       | _ => digits_from 0 false t
       end.

(** The double-quote character, for header values. *)
Definition dquote : string := String (ascii_of_nat 34) EmptyString.

End PyStr.

(** ** JSON values and the Python operations applied to them *)

Set Warnings "-register-all".

Inductive json : Type :=
| JNull
| JBool (b : bool)
| JNum (n : Z)
| JStr (s : string)
| JArr (items : list json)
| JObj (fields : list (string * json)).

Definition dict : Type := list (string * json).

(** The four routes of the remote engine, as the calls the code makes. *)
Inductive request : Type :=
| PostUpload (url name : string) (data : list byte)
| PostPrompt (url : string) (graph : json)
| GetHistory (url : string)
| GetView (url : string) (params : list (string * json)).

Inductive event : Type :=
| EReq (rq : request)
| ESleep (ms : Z).

(** Python exceptions.  [HTTPException] is FastAPI's; its [detail] keeps
    the value a formatted message interpolates.  The others are what
    [requests], the JSON decoder and the dynamic operations raise. *)
Inductive exn : Type :=
| HTTPException (status_code : Z) (d : detail)
| RequestError (msg : string)
| HTTPError (status : Z)
| JSONDecodeError
| AttributeError
| TypeError
| KeyError
| IndexError
| ValueError
with detail : Type :=
| Text (msg : string)
| UploadFailed (last_err : option exn)
| WorkflowUnreadable (path reason : string)
| InputNodeNotFound (node_id : string).

Module PyJson.

(** [bool(v)] *)
Definition truthy (v : json) : bool :=
  match v with
  | JNull => false
  | JBool b => b
  | JNum n => negb (n =? 0)
  | JStr s => negb (PyStr.is_empty s)
  | JArr l => match l with [] => false | _ => true end
  | JObj f => match f with [] => false | _ => true end
  end.

Fixpoint lookup (k : string) (d : dict) : option json :=
  match d with
  | [] => None
  | (k', v) :: r => if String.eqb k k' then Some v else lookup k r
  end.

(** [d[k] = v]: an existing key keeps its place, a new one goes last. *)
Fixpoint store (k : string) (v : json) (d : dict) : dict :=
  match d with
  | [] => [(k, v)]
  | (k', v') :: r =>
      if String.eqb k k' then (k, v) :: r else (k', v') :: store k v r
  end.

Definition has_key (k : string) (d : dict) : bool :=
  match lookup k d with Some _ => true | None => false end.

Definition is_str (s : string) (v : json) : bool :=
  match v with JStr t => String.eqb s t | _ => false end.

End PyJson.

(** ** The monad of the handlers: state, exceptions and fuel *)

Inductive outcome (A : Type) : Type :=
| Ok (a : A)
| Raise (e : exn)
| OutOfFuel.
Arguments Ok {A} a.
Arguments Raise {A} e.
Arguments OutOfFuel {A}.

Record world : Type := mkWorld {
  now : Z;              (* time.time(), in milliseconds *)
  nreq : nat;           (* requests issued so far *)
  trace : list event    (* network calls and sleeps, oldest first *)
}.

Definition M (A : Type) : Type := world -> outcome A * world.

Definition ret {A} (a : A) : M A := fun w => (Ok a, w).

Definition raise {A} (e : exn) : M A := fun w => (Raise e, w).

Definition bind {A B} (m : M A) (k : A -> M B) : M B :=
  fun w =>
    match m w with
    | (Ok a, w') => k a w'
    | (Raise e, w') => (Raise e, w')
    | (OutOfFuel, w') => (OutOfFuel, w')
    end.

Declare Scope py_scope.
Delimit Scope py_scope with py.
Notation "x <- m ;; k" := (bind m (fun x => k))
  (at level 61, m at next level, right associativity) : py_scope.
Notation "m ;; k" := (bind m (fun _ => k))
  (at level 61, right associativity) : py_scope.
Local Open Scope py_scope.

(** [try: m except Exception as e: h e] *)
Definition try_except {A} (m : M A) (h : exn -> M A) : M A :=
  fun w =>
    match m w with
    | (Raise e, w') => h e w'
    | r => r
    end.

Definition lift {A} (o : option A) (e : exn) : M A :=
  match o with Some a => ret a | None => raise e end.

(** [v.get(k, default)]: only a dict has [get]. *)
Definition py_get (v : json) (k : string) (default : json) : M json :=
  match v with
  | JObj d => ret (match PyJson.lookup k d with Some x => x | None => default end)
  | _ => raise AttributeError
  end.

(** [v[k]] for a string key. *)
Definition py_getitem (v : json) (k : string) : M json :=
  match v with
  | JObj d => lift (PyJson.lookup k d) KeyError
  | _ => raise TypeError
  end.

(** [v[0]] *)
Definition py_first (v : json) : M json :=
  match v with
  | JArr (x :: _) => ret x
  | JArr [] => raise IndexError
  | JStr (String c _) => ret (JStr (String c EmptyString))
  | JStr EmptyString => raise IndexError
  | JObj _ => raise KeyError
  | _ => raise TypeError
  end.

(** [v.items()] *)
Definition py_items (v : json) : M dict :=
  match v with
  | JObj d => ret d
  | _ => raise AttributeError
  end.

(** [prompt_id in hist], for a string [prompt_id]. *)
Definition py_in (k : string) (v : json) : M bool :=
  match v with
  | JObj d => ret (PyJson.has_key k d)
  | JArr l => ret (existsb (PyJson.is_str k) l)
  | JStr s => ret (PyStr.contains k s)
  | _ => raise TypeError
  end.

(** ** Configuration and environment *)

(** A Python float used as a span of time or as an instant: a finite
    number of milliseconds, [inf], or a value that no instant is below
    ([-inf] and [nan]); [float(os.getenv(...))] accepts all of them. *)
Inductive span : Type :=
| Finite (ms : Z)
| Forever
| Never.

(** [t + d] for a clock reading [t]. *)
Definition after (t : Z) (d : span) : span :=
  match d with
  | Finite ms => Finite (t + ms)
  | Forever => Forever
  | Never => Never
  end.

(** [t < deadline] for a clock reading [t]. *)
Definition before (t : Z) (deadline : span) : bool :=
  match deadline with
  | Finite d => t <? d
  | Forever => true
  | Never => false
  end.

(** The settings read from the process environment.  The timeout is any
    float; the interval is a finite one (a negative interval makes
    [time.sleep] raise, as [sleep] does). *)
Record config : Type := mkConfig {
  WORKFLOW_JSON : string;
  INPUT_NODE_ID : string;
  OUTPUT_NODE_ID : string;
  POLL_INTERVAL_MS : Z;     (* POLL_INTERVAL_S, in milliseconds *)
  POLL_TIMEOUT_MS : span;   (* POLL_TIMEOUT_S, in milliseconds *)
  MAX_RETRIES : Z;
  API_KEY : string
}.

Definition default_config : config :=
  mkConfig "JSON.json" "54" "455" 5000 (Finite 120000) 3 "mysecret123".

Record response : Type := mkResponse {
  status_code : Z;
  json_body : option json;   (* [None]: the body is not JSON *)
  content : list byte
}.

Inductive reply : Type :=
| Refused (msg : string)     (* the transport raised *)
| Answer (r : response).

(** Everything outside the process: the remote engine, answering the
    [i]-th request of the run, the time that request takes, and the
    workflow file. *)
Record environment : Type := mkEnv {
  serve : nat -> request -> reply;
  latency : nat -> N;
  read_json_file : string -> string + json
}.

(** ** The handlers of [app.py] *)

Section App.

Variable cfg : config.
Variable env : environment.

(** [time.time()] *)
Definition time : M Z := fun w => (Ok (now w), w).

(** [time.sleep(ms / 1000)] *)
Definition sleep (ms : Z) : M unit :=
  fun w =>
    if ms <? 0 then (Raise ValueError, w)
    else (Ok tt, mkWorld (now w + ms) (nreq w) (trace w ++ [ESleep ms])).

(** [requests.post] and [requests.get] *)
Definition send (rq : request) : M response :=
  fun w =>
    let w' := mkWorld (now w + Z.of_N (latency env (nreq w)))
                      (S (nreq w)) (trace w ++ [EReq rq]) in
    match serve env (nreq w) rq with
    | Refused msg => (Raise (RequestError msg), w')
    | Answer r => (Ok r, w')
    end.

(** [r.raise_for_status()] *)
Definition raise_for_status (r : response) : M unit :=
  if (400 <=? status_code r) && (status_code r <? 600)
  then raise (HTTPError (status_code r))
  else ret tt.

(** [r.json()] *)
Definition response_json (r : response) : M json :=
  lift (json_body r) JSONDecodeError.

Definition _require_key (x_api_key : option string) : M unit :=
  if negb (PyStr.is_empty (API_KEY cfg))
     && negb (match x_api_key with
              | Some k => String.eqb k (API_KEY cfg)
              | None => false
              end)
  then raise (HTTPException 401 (Text "Unauthorized"))
  else ret tt.

Definition no_url_detail : detail :=
  Text "comfy_url must be provided via form field, header (x-comfy-url), or query parameter".

(** The [for url in [...]] loop of [_pick_comfy_url]. *)
Fixpoint pick_first (urls : list (option string)) : M string :=
  match urls with
  | [] => raise (HTTPException 400 no_url_detail)
  | u :: rest =>
      match u with
      | Some url =>
          if negb (PyStr.is_empty url)
             && negb (PyStr.is_empty (PyStr.strip url))
          then ret (PyStr.rstrip_slash url ++ "/")
          else pick_first rest
      | None => pick_first rest
      end
  end.

Definition _pick_comfy_url (form_url header_url query_url : option string)
  : M string :=
  pick_first [form_url; header_url; query_url].

Definition upload_url (base_url : string) : string :=
  PyStr.rstrip_slash base_url ++ "/upload/image".

(** One turn of the retry loop: [inl] is the [return stamped], [inr]
    the exception kept in [last_err] after the backoff. *)
Definition upload_attempt (rq : request) (stamped : string)
  : M (string + exn) :=
  try_except
    (r <- send rq ;;
     raise_for_status r ;;
     ret (inl stamped))
    (fun e => sleep 2000 ;; ret (inr e)).

Fixpoint upload_loop (turns : nat) (rq : request) (stamped : string)
         (last_err : option exn) : M string :=
  match turns with
  | O => raise (HTTPException 502 (UploadFailed last_err))
  | S turns' =>
      x <- upload_attempt rq stamped ;;
      match x with
      | inl name => ret name
      | inr e => upload_loop turns' rq stamped (Some e)
      end
  end.

Definition stamp (t : Z) (original_name : string) : string :=
  PyStr.of_Z t ++ "_" ++ original_name.

Definition _upload_to_comfy (img_bytes : list byte)
           (original_name base_url : string) : M string :=
  t <- time ;;
  let stamped := stamp t original_name in
  upload_loop (Z.to_nat (MAX_RETRIES cfg))
              (PostUpload (upload_url base_url) stamped img_bytes)
              stamped None.

Definition prompt_url (base_url : string) : string :=
  PyStr.rstrip_slash base_url ++ "/prompt".

(** The return annotation is [str]; the embedding keeps job ids typed,
    and reports an id of another JSON type as a [TypeError]. *)
Definition _queue_prompt (graph : json) (base_url : string) : M string :=
  r <- send (PostPrompt (prompt_url base_url) graph) ;;
  raise_for_status r ;;
  body <- response_json r ;;
  pid <- py_get body "prompt_id" JNull ;;
  if negb (PyJson.truthy pid)
  then raise (HTTPException 500 (Text "ComfyUI did not return prompt_id"))
  else match pid with
       | JStr s => ret s
       | _ => raise TypeError
       end.

(** [for _, v in outputs.items(): if v.get("images"): node = v; break] *)
Fixpoint first_with_images (node : json) (items : dict) : M json :=
  match items with
  | [] => ret node
  | (_, v) :: rest =>
      imgs <- py_get v "images" JNull ;;
      if PyJson.truthy imgs then ret v else first_with_images node rest
  end.

(** The node selection written out twice in the source, in
    [_poll_history] and in [_fetch_first_image]. *)
Definition select_node (outputs : json) : M json :=
  node <- py_get outputs (OUTPUT_NODE_ID cfg) JNull ;;
  if negb (PyJson.truthy node)
  then items <- py_items outputs ;; first_with_images node items
  else ret node.

(** [node and node.get("images")], as a truth value. *)
Definition has_images (node : json) : M bool :=
  if PyJson.truthy node
  then imgs <- py_get node "images" JNull ;; ret (PyJson.truthy imgs)
  else ret false.

Definition history_url (base_url prompt_id : string) : string :=
  PyStr.rstrip_slash base_url ++ "/history/" ++ prompt_id.

(** Lines 59 to 70: what an iteration does with the response;
    [Some hist] is the [return hist]. *)
Definition inspect_status (prompt_id : string) (r : response)
  : M (option json) :=
  if status_code r =? 200 then
    hist <- response_json r ;;
    present <- (if PyJson.truthy hist then py_in prompt_id hist
                else ret false) ;;
    if (present : bool) then
      entry <- py_getitem hist prompt_id ;;
      outputs <- py_get entry "outputs" (JObj []) ;;
      node <- select_node outputs ;;
      ready <- has_images node ;;
      if (ready : bool) then ret (Some hist) else ret None
    else ret None
  else ret None.

(** The body of the [while] loop up to the sleep. *)
Definition poll_once (prompt_id base_url : string) : M (option json) :=
  r <- send (GetHistory (history_url base_url prompt_id)) ;;
  inspect_status prompt_id r.

Definition timed_out : exn :=
  HTTPException 504 (Text "Timed out waiting for ComfyUI").

Fixpoint poll_loop (fuel : nat) (prompt_id base_url : string)
         (deadline : span) : M json :=
  match fuel with
  | O => fun w => (OutOfFuel, w)
  | S fuel' =>
      t <- time ;;
      if before t deadline then
        found <- poll_once prompt_id base_url ;;
        match found with
        | Some hist => ret hist
        | None =>
            sleep (POLL_INTERVAL_MS cfg) ;;
            poll_loop fuel' prompt_id base_url deadline
        end
      else raise timed_out
  end.

Definition _poll_history (fuel : nat) (prompt_id base_url : string)
  : M json :=
  t <- time ;;
  poll_loop fuel prompt_id base_url (after t (POLL_TIMEOUT_MS cfg)).

Definition view_url (base_url : string) : string :=
  PyStr.rstrip_slash base_url ++ "/view".

Definition no_images : exn :=
  HTTPException 500 (Text "No output images found").

Definition _fetch_first_image (history : json)
           (prompt_id base_url : string) : M (list byte) :=
  entry <- py_getitem history prompt_id ;;
  outputs <- py_getitem entry "outputs" ;;
  node <- select_node outputs ;;
  found <- has_images node ;;
  if negb found then raise no_images
  else
    images <- py_getitem node "images" ;;
    info <- py_first images ;;
    filename <- py_getitem info "filename" ;;
    subfolder <- py_get info "subfolder" (JStr "") ;;
    type <- py_get info "type" (JStr "output") ;;
    r <- send (GetView (view_url base_url)
                       [("filename", filename);
                        ("subfolder", subfolder);
                        ("type", type)]) ;;
    raise_for_status r ;;
    ret (content r).

(** [graph.get(INPUT_NODE_ID) or graph.get(int(INPUT_NODE_ID))]: the
    keys of a decoded JSON object are strings, so the lookup by the
    integer finds nothing once [int] has returned. *)
Definition find_input_node (graph : json) : M json :=
  by_name <- py_get graph (INPUT_NODE_ID cfg) JNull ;;
  if PyJson.truthy by_name then ret by_name
  else match PyStr.to_int (INPUT_NODE_ID cfg) with
       | Some _ => ret JNull
       | None => raise ValueError
       end.

(** [node.setdefault("inputs", {})["image"] = comfy_name], giving the
    node after the assignment. *)
Definition set_image (node : json) (comfy_name : string) : M json :=
  match node with
  | JObj fields =>
      let inputs := match PyJson.lookup "inputs" fields with
                    | Some i => i
                    | None => JObj []
                    end in
      match inputs with
      | JObj ins =>
          ret (JObj (PyJson.store "inputs"
                       (JObj (PyJson.store "image" (JStr comfy_name) ins))
                       fields))
      | _ => raise TypeError
      end
  | _ => raise AttributeError
  end.

(** Lines 148 to 151 of [mask]: the graph as it stands after the node
    found under [INPUT_NODE_ID] has been updated in place. *)
Definition bind_input (graph : json) (comfy_name : string) : M json :=
  node <- find_input_node graph ;;
  if negb (PyJson.truthy node)
  then raise (HTTPException 500 (InputNodeNotFound (INPUT_NODE_ID cfg)))
  else
    node' <- set_image node comfy_name ;;
    match graph with
    | JObj nodes => ret (JObj (PyJson.store (INPUT_NODE_ID cfg) node' nodes))
    | _ => raise AttributeError
    end.

Definition load_workflow : M json :=
  match read_json_file env (WORKFLOW_JSON cfg) with
  | inr graph => ret graph
  | inl reason =>
      raise (HTTPException 500
               (WorkflowUnreadable (WORKFLOW_JSON cfg) reason))
  end.

Record streaming_response : Type := mkStreaming {
  body : list byte;
  media_type : string;
  content_disposition : string
}.

Definition attachment (name : string) : string :=
  "attachment; filename=" ++ PyStr.dquote ++ name ++ PyStr.dquote.

(** [file.filename or "image.png"] *)
Definition name_of_upload (filename : option string) : string :=
  match filename with
  | Some s => if PyStr.is_empty s then "image.png" else s
  | None => "image.png"
  end.

(** [POST /mask] *)
Definition mask (fuel : nat) (file : list byte) (filename : option string)
           (x_api_key x_comfy_url comfy_url comfy_url_query : option string)
  : M streaming_response :=
  _require_key x_api_key ;;
  effective_comfy <- _pick_comfy_url comfy_url x_comfy_url comfy_url_query ;;
  let img_bytes := file in
  let original_name := name_of_upload filename in
  comfy_name <- _upload_to_comfy img_bytes original_name effective_comfy ;;
  graph <- load_workflow ;;
  graph' <- bind_input graph comfy_name ;;
  pid <- _queue_prompt graph' effective_comfy ;;
  history <- _poll_history fuel pid effective_comfy ;;
  out_bytes <- _fetch_first_image history pid effective_comfy ;;
  ret (mkStreaming out_bytes "application/octet-stream"
                   (attachment original_name)).

End App.

Section Health.

Variable cfg : config.

(** [GET /health] *)
Definition health (x_api_key x_comfy_url comfy_url : option string)
  : M json :=
  _require_key cfg x_api_key ;;
  effective_comfy <- _pick_comfy_url None x_comfy_url comfy_url ;;
  ret (JObj [("ok", JBool true);
             ("comfy_url", JStr effective_comfy);
             ("workflow_json", JStr (WORKFLOW_JSON cfg));
             ("input_node_id", JStr (INPUT_NODE_ID cfg));
             ("output_node_id", JStr (OUTPUT_NODE_ID cfg))]).

End Health.

Definition start : world := mkWorld 0 0 [].

(** ** Vocabulary of the statements *)

Fixpoint all_chars (p : ascii -> bool) (s : string) : bool :=
  match s with
  | EmptyString => true
  | String c r => p c && all_chars p r
  end.

Fixpoint last_char (s : string) : option ascii :=
  match s with
  | EmptyString => None
  | String c r => match last_char r with None => Some c | found => found end
  end.

Definition ends_with_slash (s : string) : bool :=
  match last_char s with Some c => PyStr.is_slash c | None => false end.

Definition starts_with_slash (s : string) : bool :=
  match s with String c _ => PyStr.is_slash c | EmptyString => false end.

(** [url] is [stem], one separator, [suffix]: the separator is the only
    slash at the joint. *)
Definition one_separator (stem suffix url : string) : Prop :=
  url = stem ++ "/" ++ suffix
  /\ ends_with_slash stem = false
  /\ starts_with_slash suffix = false.

(** The four route URLs built from [base] all join [stem] and their
    suffix by one separator. *)
Definition all_routes (stem prompt_id base : string) : Prop :=
  one_separator stem "upload/image" (upload_url base)
  /\ one_separator stem "prompt" (prompt_url base)
  /\ one_separator stem ("history/" ++ prompt_id) (history_url base prompt_id)
  /\ one_separator stem "view" (view_url base).

Fixpoint slashes (n : nat) : string :=
  match n with O => "" | S k => String "/" (slashes k) end.

(** The exception one upload attempt ends with, given the reply to its
    request: a transport failure or a 4xx/5xx status; [None] when the
    attempt succeeds. *)
Definition attempt_error (r : reply) : option exn :=
  match r with
  | Refused msg => Some (RequestError msg)
  | Answer a =>
      if (400 <=? status_code a) && (status_code a <? 600)
      then Some (HTTPError (status_code a))
      else None
  end.

(** [n] turns of "request, then sleep". *)
Fixpoint cycles (n : nat) (rq : request) (ms : Z) : list event :=
  match n with
  | O => []
  | S k => EReq rq :: ESleep ms :: cycles k rq ms
  end.

(** The world after one request, and after one sleep. *)
Definition sent (env : environment) (rq : request) (w : world) : world :=
  mkWorld (now w + Z.of_N (latency env (nreq w))) (S (nreq w))
          (trace w ++ [EReq rq]).

Definition slept (ms : Z) (w : world) : world :=
  mkWorld (now w + ms) (nreq w) (trace w ++ [ESleep ms]).

(** The whitespace of Unicode below 256, by code point: TAB, LF, VT, FF,
    CR, FS, GS, RS, US, the blank, NEL and the no-break space. *)
Definition whitespace : list nat :=
  [9; 10; 11; 12; 13; 28; 29; 30; 31; 32; 133; 160]%nat.

Definition is_whitespace (c : ascii) : bool :=
  existsb (Nat.eqb (nat_of_ascii c)) whitespace.

(** The value a source contributes to the endpoint choice: nothing when
    it is missing, empty or made of whitespace only. *)
Definition supplied (o : option string) : option string :=
  match o with
  | None => None
  | Some s => if all_chars is_whitespace s then None else Some s
  end.

(** First supplied value in the order form field, header, query. *)
Definition by_priority (form_url header_url query_url : option string)
  : option string :=
  match supplied form_url, supplied header_url, supplied query_url with
  | Some u, _, _ => Some u
  | None, Some u, _ => Some u
  | None, None, q => q
  end.

(** [v.get(k)] on a mapping, as a value. *)
Definition get_or_null (k : string) (d : dict) : json :=
  match PyJson.lookup k d with Some v => v | None => JNull end.

(** The artifact sequence an output entry reports, [None] in Python when
    the entry has no [images] field. *)
Definition images_of (fields : dict) : json := get_or_null "images" fields.

(** An entry of the outputs mapping that is a mapping with a non-empty
    artifact sequence, and one that is a mapping without. *)
Definition bears_images (v : json) : Prop :=
  exists fields, v = JObj fields /\ PyJson.truthy (images_of fields) = true.

Definition lacks_images (v : json) : Prop :=
  exists fields, v = JObj fields /\ PyJson.truthy (images_of fields) = false.

(** A computation that neither reads nor writes the world and needs no
    fuel. *)
Definition stateless {A} (m : M A) : Prop :=
  exists r, r <> OutOfFuel /\ forall w, m w = (r, w).

(** The query of the download request for one artifact descriptor: its
    file name, and its subfolder and type or their defaults. *)
Definition descriptor_params (info : dict) (filename : json)
  : list (string * json) :=
  [("filename", filename);
   ("subfolder", match PyJson.lookup "subfolder" info with
                 | Some v => v
                 | None => JStr ""
                 end);
   ("type", match PyJson.lookup "type" info with
            | Some v => v
            | None => JStr "output"
            end)].

(** One request whose payload is returned unless the transport fails or
    the status is 4xx or 5xx. *)
Definition download (env : environment) (rq : request) (w : world)
  : outcome (list byte) * world :=
  (match serve env (nreq w) rq with
   | Refused msg => Raise (RequestError msg)
   | Answer a =>
       if (400 <=? status_code a) && (status_code a <? 600)
       then Raise (HTTPError (status_code a))
       else Ok (content a)
   end, sent env rq w).

Definition unauthorized : exn := HTTPException 401 (Text "Unauthorized").

Definition no_prompt_id : exn :=
  HTTPException 500 (Text "ComfyUI did not return prompt_id").

Definition is_http (e : exn) : bool :=
  match e with HTTPException _ _ => true | _ => false end.

(** A computation that raises no [HTTPException] of its own. *)
Definition no_http {A} (m : M A) : Prop :=
  forall w e w', m w = (Raise e, w') -> is_http e = false.

(** The three stretches of the trace of a request: the upload posts and
    their backoffs, the status requests and the sleeps between them, and
    at most one download. *)
Definition upload_phase (rq : request) (t : list event) : Prop :=
  Forall (fun e => e = EReq rq \/ e = ESleep 2000) t.

Definition poll_phase (rq : request) (interval : Z) (t : list event)
  : Prop :=
  Forall (fun e => e = EReq rq \/ e = ESleep interval) t.

Definition view_phase (url : string) (t : list event) : Prop :=
  t = [] \/ exists params, t = [EReq (GetView url params)].

(** What follows the upload in the trace: nothing, or the prompt, the
    polls and the download, in this order. *)
Definition after_upload (base : string) (interval : Z) (t : list event)
  : Prop :=
  t = []
  \/ exists graph prompt_id polls view,
      t = (EReq (PostPrompt (prompt_url base) graph) :: polls ++ view)%list
      /\ poll_phase (GetHistory (history_url base prompt_id)) interval polls
      /\ view_phase (view_url base) view.

(** The [image] field of the [inputs] of a node of a graph. *)
Definition image_of (node_id : string) (graph : json) : option json :=
  match graph with
  | JObj nodes =>
      match PyJson.lookup node_id nodes with
      | Some (JObj fields) =>
          match PyJson.lookup "inputs" fields with
          | Some (JObj ins) => PyJson.lookup "image" ins
          | _ => None
          end
      | _ => None
      end
  | _ => None
  end.

Definition not_underscore (c : ascii) : bool := negb (Ascii.eqb c "_").

(** The inputs a node definition has before the binding. *)
Definition inputs_of (fields : dict) : dict :=
  match PyJson.lookup "inputs" fields with
  | Some (JObj ins) => ins
  | _ => []
  end.

(** The graph with the image bound into the given node. *)
Definition bound (node_id name : string) (nodes fields : dict) : json :=
  JObj (PyJson.store node_id
          (JObj (PyJson.store "inputs"
                   (JObj (PyJson.store "image" (JStr name)
                            (inputs_of fields)))
                   fields))
          nodes).

(** Reading a Content-Disposition header: the file name it suggests is
    what stands between [attachment; filename=] and a quote and the final
    quote. *)
Fixpoint drop_prefix (p s : string) : option string :=
  match p, s with
  | EmptyString, _ => Some s
  | String a p', String b s' =>
      if Ascii.eqb a b then drop_prefix p' s' else None
  | String _ _, EmptyString => None
  end.

Fixpoint drop_final_quote (s : string) : option string :=
  match s with
  | EmptyString => None
  | String c EmptyString =>
      if Ascii.eqb c "034" then Some EmptyString else None
  | String c r => option_map (String c) (drop_final_quote r)
  end.

Definition suggested_filename (header : string) : option string :=
  match drop_prefix ("attachment; filename=" ++ String "034" "") header with
  | Some rest => drop_final_quote rest
  | None => None
  end.

(** A timeout that leaves room for a first turn, and one that does
    not. *)
Definition positive_timeout (d : span) : Prop :=
  match d with
  | Finite ms => 0 < ms
  | Forever => True
  | Never => False
  end.

Definition elapsed_timeout (d : span) : Prop :=
  match d with
  | Finite ms => ms <= 0
  | Forever => False
  | Never => True
  end.




(** ** Sample remotes and documents *)

Definition ok_reply (doc : option json) (payload : list byte) : reply :=
  Answer (mkResponse 200 doc payload).

Definition sample_image : list byte := [x89; x50; x4e; x47].

Definition sample_payload : list byte := [x50; x4e; x47].

(** A template with the default input node, without an [inputs] field. *)
Definition sample_nodes : dict :=
  [("7", JObj [("class_type", JStr "KSampler")]);
   ("54", JObj [("class_type", JStr "LoadImage")]);
   ("455", JObj [("class_type", JStr "SaveImage")])].

(** A template without the default input node. *)
Definition bare_nodes : dict :=
  [("7", JObj [("class_type", JStr "KSampler")])].

Definition sample_descriptor : dict := [("filename", JStr "result.png")].

Definition status_of (outs : dict) : dict :=
  [("abc123", JObj [("outputs", JObj outs)])].

(** The preferred node reports the image, and a second one as well. *)
Definition done_outputs : dict :=
  [("455", JObj [("images", JArr [JObj sample_descriptor;
                                  JObj [("filename", JStr "other.png")]])])].

(** The preferred node is absent; the second entry has an image. *)
Definition fallback_outputs : dict :=
  [("12", JObj [("text", JArr [JStr "done"])]);
   ("9", JObj [("images", JArr [JObj sample_descriptor])])].

(** The preferred node is present with an empty artifact sequence, and
    another node has an image. *)
Definition stuck_outputs : dict :=
  [("455", JObj [("images", JArr [])]);
   ("9", JObj [("images", JArr [JObj sample_descriptor])])].

(** A remote that accepts the upload and the prompt, and answers every
    status request after the first [pending] requests of the run with
    the given outputs. *)
Definition remote_with (pending : nat) (outs : dict) (template : dict)
  : environment :=
  mkEnv (fun i rq =>
           match rq with
           | PostUpload _ _ _ => ok_reply None []
           | PostPrompt _ _ =>
               ok_reply (Some (JObj [("prompt_id", JStr "abc123")])) []
           | GetHistory _ =>
               if (i <? pending)%nat then ok_reply (Some (JObj [])) []
               else ok_reply (Some (JObj (status_of outs))) []
           | GetView _ _ => ok_reply None sample_payload
           end)
        (fun _ => 10%N)
        (fun _ => inr (JObj template)).

(** A remote whose first [failures] answers are transport failures. *)
Definition flaky_remote (failures : nat) : environment :=
  mkEnv (fun i rq =>
           if (i <? failures)%nat then Refused "connection reset"
           else ok_reply None [])
        (fun _ => 10%N)
        (fun _ => inr (JObj sample_nodes)).

Definition open_config : config :=
  mkConfig "JSON.json" "54" "455" 5000 (Finite 120000) 3 "".

Definition no_retry_config : config :=
  mkConfig "JSON.json" "54" "455" 5000 (Finite 120000) 0 "mysecret123".

Definition no_wait_config : config :=
  mkConfig "JSON.json" "54" "455" 5000 (Finite 0) 3 "mysecret123".


(** A remote that refuses every request. *)
Definition dead_remote : environment :=
  mkEnv (fun _ _ => Refused "connection refused")
        (fun _ => 10%N)
        (fun _ => inr (JObj sample_nodes)).

(** A remote whose status answers are not JSON. *)
Definition garbled_remote : environment :=
  mkEnv (fun _ _ => ok_reply None [])
        (fun _ => 10%N)
        (fun _ => inr (JObj sample_nodes)).

Definition named_config : config :=
  mkConfig "JSON.json" "load_image" "455" 5000 (Finite 120000) 3 "mysecret123".

Definition sample_key : option string := Some "mysecret123".

Definition sample_base : string := "http://h:8188/".

Definition history_request : request :=
  GetHistory "http://h:8188/history/abc123".

Definition upload_request : request :=
  PostUpload "http://h:8188/upload/image" "0_cat.png" sample_image.

Definition view_request : request :=
  GetView "http://h:8188/view"
          [("filename", JStr "result.png"); ("subfolder", JStr "");
           ("type", JStr "output")].

Definition sample_response : streaming_response :=
  mkStreaming sample_payload "application/octet-stream"
              (attachment "cat.png").

(** The graph posted in the end-to-end run, and the world after it. *)
Definition sample_bound_graph : json :=
  bound "54" "0_cat.png" sample_nodes [("class_type", JStr "LoadImage")].

Definition sample_final_world : world :=
  mkWorld 5050 5
    [EReq upload_request;
     EReq (PostPrompt "http://h:8188/prompt" sample_bound_graph);
     EReq history_request; ESleep 5000; EReq history_request;
     EReq view_request].

(** ** Lemmas on strings *)

Section Strip.

Variable p : ascii -> bool.

Lemma is_empty_spec (s : string) : PyStr.is_empty s = true <-> s = "".
Proof. destruct s; simpl; split; intros H; congruence. Qed.

Lemma rstrip_empty_iff (s : string) :
  PyStr.is_empty (PyStr.rstrip_by p s) = all_chars p s.
Proof.
  induction s as [|c r IH]; simpl; [reflexivity|].
  rewrite IH. destruct (all_chars p r), (p c); reflexivity.
Qed.

Lemma lstrip_empty_iff (s : string) :
  PyStr.is_empty (PyStr.lstrip_by p s) = all_chars p s.
Proof.
  induction s as [|c r IH]; simpl; [reflexivity|].
  destruct (p c); simpl; [exact IH | reflexivity].
Qed.

Lemma all_chars_rstrip (s : string) :
  all_chars p (PyStr.rstrip_by p s) = all_chars p s.
Proof.
  induction s as [|c r IH]; simpl; [reflexivity|].
  rewrite rstrip_empty_iff.
  destruct (all_chars p r) eqn:Er, (p c) eqn:Ec; simpl;
    rewrite ?Ec, ?IH; reflexivity.
Qed.

Lemma rstrip_idem (s : string) :
  PyStr.rstrip_by p (PyStr.rstrip_by p s) = PyStr.rstrip_by p s.
Proof.
  induction s as [|c r IH]; simpl; [reflexivity|].
  destruct (PyStr.is_empty (PyStr.rstrip_by p r) && p c) eqn:E; simpl;
    [reflexivity|].
  rewrite IH, E. reflexivity.
Qed.

Lemma rstrip_app_stripped (s t : string) :
  all_chars p t = true ->
  PyStr.rstrip_by p (s ++ t) = PyStr.rstrip_by p s.
Proof.
  intros Ht. induction s as [|c r IH]; simpl.
  - apply is_empty_spec. rewrite rstrip_empty_iff. exact Ht.
  - rewrite IH. reflexivity.
Qed.

Lemma last_char_none (s : string) : last_char s = None -> s = "".
Proof.
  destruct s as [|c r]; simpl; [reflexivity|].
  destruct (last_char r); discriminate.
Qed.

Lemma rstrip_last (s : string) (c : ascii) :
  last_char (PyStr.rstrip_by p s) = Some c -> p c = false.
Proof.
  induction s as [|c0 r IH]; simpl; [discriminate|].
  destruct (PyStr.is_empty (PyStr.rstrip_by p r) && p c0) eqn:E; simpl;
    [discriminate|].
  destruct (last_char (PyStr.rstrip_by p r)) as [c1|] eqn:El.
  - intros H. apply IH. congruence.
  - intros H. injection H as <-.
    apply last_char_none in El. rewrite El in E. exact E.
Qed.

End Strip.

Lemma rstrip_slash_no_trailing (s : string) :
  ends_with_slash (PyStr.rstrip_slash s) = false.
Proof.
  unfold ends_with_slash, PyStr.rstrip_slash.
  destruct (last_char (PyStr.rstrip_by PyStr.is_slash s)) as [c|] eqn:E;
    [|reflexivity].
  exact (rstrip_last _ _ _ E).
Qed.

Lemma rstrip_slash_normalized (url : string) :
  PyStr.rstrip_slash (PyStr.rstrip_slash url ++ "/") = PyStr.rstrip_slash url.
Proof.
  unfold PyStr.rstrip_slash.
  rewrite rstrip_app_stripped by reflexivity. apply rstrip_idem.
Qed.

Lemma strip_empty_iff (s : string) :
  PyStr.is_empty (PyStr.strip s) = all_chars PyStr.is_space s.
Proof.
  unfold PyStr.strip. rewrite lstrip_empty_iff. apply all_chars_rstrip.
Qed.

(** [str.isspace], as embedded, accepts the whitespace code points and
    no other. *)
Lemma is_space_whitespace (c : ascii) : PyStr.is_space c = is_whitespace c.
Proof. destruct c as [[] [] [] [] [] [] [] []]; reflexivity. Qed.

Lemma all_chars_ext (p q : ascii -> bool) (s : string) :
  (forall c, p c = q c) -> all_chars p s = all_chars q s.
Proof.
  intros H. induction s as [|c r IH]; simpl; [reflexivity|].
  rewrite H, IH. reflexivity.
Qed.

Lemma all_chars_nonempty_test (s : string) :
  negb (PyStr.is_empty s) && negb (PyStr.is_empty (PyStr.strip s))
  = negb (all_chars is_whitespace s).
Proof.
  rewrite strip_empty_iff.
  rewrite (all_chars_ext _ _ s is_space_whitespace).
  destruct s; reflexivity.
Qed.

(** ** Endpoint selection *)

Lemma pick_first_cons (u : option string) (rest : list (option string))
      (w : world) :
  pick_first (u :: rest) w =
  match supplied u with
  | Some url => (Ok (PyStr.rstrip_slash url ++ "/"), w)
  | None => pick_first rest w
  end.
Proof.
  destruct u as [url|]; simpl; [|reflexivity].
  rewrite all_chars_nonempty_test.
  destruct (all_chars is_whitespace url); reflexivity.
Qed.

Lemma pick_comfy_url_eq (form_url header_url query_url : option string)
      (w : world) :
  _pick_comfy_url form_url header_url query_url w
  = (match by_priority form_url header_url query_url with
     | Some url => Ok (PyStr.rstrip_slash url ++ "/")
     | None => Raise (HTTPException 400 no_url_detail)
     end, w).
Proof.
  unfold _pick_comfy_url, by_priority.
  repeat rewrite pick_first_cons.
  destruct (supplied form_url), (supplied header_url),
    (supplied query_url); reflexivity.
Qed.

Lemma require_key_world (cfg : config) (k : option string) (w w' : world)
      (r : outcome unit) :
  _require_key cfg k w = (r, w') -> w' = w.
Proof.
  unfold _require_key.
  destruct (negb (PyStr.is_empty (API_KEY cfg)) && _);
    intros H; injection H as _ <-; reflexivity.
Qed.

(** ** Route construction *)

(** A string is its [rstrip('/')] followed by slashes only. *)
Lemma rstrip_slash_decompose (s : string) :
  exists k, s = PyStr.rstrip_slash s ++ slashes k.
Proof.
  unfold PyStr.rstrip_slash. induction s as [|c r [k IH]].
  - exists 0%nat. reflexivity.
  - cbn [PyStr.rstrip_by].
    destruct (PyStr.is_empty (PyStr.rstrip_by PyStr.is_slash r)) eqn:Ee;
      cbn [andb].
    + destruct (PyStr.is_slash c) eqn:Ec.
      * exists (S k). unfold PyStr.is_slash in Ec.
        apply Ascii.eqb_eq in Ec. subst c.
        destruct (PyStr.rstrip_by PyStr.is_slash r); [|discriminate].
        simpl in IH. simpl. rewrite IH at 1. reflexivity.
      * exists k. simpl. rewrite IH at 1. reflexivity.
    + exists k. simpl. rewrite IH at 1. reflexivity.
Qed.

(** C6.  Every base URL is a stem that does not end with a slash,
    followed by some number of slashes (none, one or more); and each of
    the four route URLs (upload/image, prompt, history/<job id>, view)
    built from it is that stem, one slash, and the route suffix, the
    suffix not beginning with a slash.  The same four URLs, with the same
    stem, are built from the normalised endpoint (stem plus one slash),
    which is what [_pick_comfy_url] returns for the URL when it is the
    one selected, and from the URL with any number of further trailing
    slashes. *)
Theorem route_urls_one_separator (url prompt_id : string) (extra : nat) :
  exists (stem : string) (k : nat),
    url = stem ++ slashes k
    /\ ends_with_slash stem = false
    /\ all_routes stem prompt_id url
    /\ all_routes stem prompt_id (stem ++ "/")
    /\ all_routes stem prompt_id (url ++ slashes extra)
    /\ upload_url url = stem ++ "/upload/image"
    /\ prompt_url url = stem ++ "/prompt"
    /\ history_url url prompt_id = stem ++ "/history/" ++ prompt_id
    /\ view_url url = stem ++ "/view"
    /\ (forall other1 other2 w,
          supplied (Some url) = Some url ->
          _pick_comfy_url (Some url) other1 other2 w
          = (Ok (stem ++ "/"), w)).
Proof.
  destruct (rstrip_slash_decompose url) as [k Hk].
  exists (PyStr.rstrip_slash url), k.
  assert (G : forall base, PyStr.rstrip_slash base = PyStr.rstrip_slash url ->
                           all_routes (PyStr.rstrip_slash url) prompt_id base).
  { intros base E.
    unfold all_routes, one_separator, upload_url, prompt_url, history_url,
      view_url.
    rewrite E, rstrip_slash_no_trailing. repeat split. }
  split; [exact Hk|]. split; [apply rstrip_slash_no_trailing|].
  split; [apply G; reflexivity|].
  split; [apply G; apply rstrip_slash_normalized|].
  split.
  { apply G. unfold PyStr.rstrip_slash. apply rstrip_app_stripped.
    induction extra as [|n IH]; [reflexivity|]. simpl. exact IH. }
  split; [reflexivity|]. split; [reflexivity|]. split; [reflexivity|].
  split; [reflexivity|].
  intros other1 other2 w Hs. rewrite pick_comfy_url_eq.
  unfold by_priority. rewrite Hs. reflexivity.
Qed.

(** ** Endpoint priority *)


(** ** Upload retries *)

Section Upload.

Variable cfg : config.
Variable env : environment.

Lemma upload_attempt_eq (rq : request) (stamped : string) (w : world) :
  upload_attempt env rq stamped w =
  match attempt_error (serve env (nreq w) rq) with
  | None => (Ok (inl stamped), sent env rq w)
  | Some e => (Ok (inr e), slept 2000 (sent env rq w))
  end.
Proof.
  unfold upload_attempt, try_except, bind, send, attempt_error,
    raise_for_status.
  destruct (serve env (nreq w) rq) as [msg|r]; [reflexivity|].
  destruct ((400 <=? status_code r) && (status_code r <? 600));
    reflexivity.
Qed.

Lemma upload_loop_exhausted (rq : request) (stamped : string) :
  forall (turns : nat) (w : world) (last : option exn),
    (forall i, (i < turns)%nat ->
               attempt_error (serve env (nreq w + i) rq) <> None) ->
    exists w',
      upload_loop env turns rq stamped last w
      = (Raise (HTTPException 502 (UploadFailed
           (match turns with
            | O => last
            | S k => attempt_error (serve env (nreq w + k) rq)
            end))), w')
      /\ trace w' = (trace w ++ cycles turns rq 2000)%list
      /\ nreq w' = (nreq w + turns)%nat.
Proof.
  induction turns as [|k IH]; intros w last Hfail.
  - exists w. simpl. rewrite app_nil_r, Nat.add_0_r. auto.
  - simpl upload_loop. unfold bind. rewrite upload_attempt_eq.
    pose proof (Hfail 0%nat ltac:(lia)) as H0.
    rewrite Nat.add_0_r in H0.
    destruct (attempt_error (serve env (nreq w) rq)) as [e|] eqn:E0;
      [clear H0 | congruence].
    destruct (IH (slept 2000 (sent env rq w)) (Some e)) as (w' & Hrun & Htr & Hn).
    { intros i Hi. simpl. replace (S (nreq w + i)) with (nreq w + S i)%nat by lia.
      apply Hfail. lia. }
    exists w'. rewrite Hrun. simpl in Htr, Hn. repeat split.
    + destruct k as [|k'].
      * simpl. rewrite Nat.add_0_r, E0. reflexivity.
      * simpl. replace (S (nreq w + k')) with (nreq w + S k')%nat by lia.
        reflexivity.
    + rewrite Htr. simpl. repeat rewrite <- app_assoc. reflexivity.
    + lia.
Qed.

Lemma upload_loop_succeeds (rq : request) (stamped : string) :
  forall (N turns : nat) (w : world) (last : option exn),
    (N < turns)%nat ->
    (forall i, (i < N)%nat ->
               attempt_error (serve env (nreq w + i) rq) <> None) ->
    attempt_error (serve env (nreq w + N) rq) = None ->
    exists w',
      upload_loop env turns rq stamped last w = (Ok stamped, w')
      /\ trace w' = (trace w ++ cycles N rq 2000 ++ [EReq rq])%list
      /\ nreq w' = (nreq w + N + 1)%nat.
Proof.
  induction N as [|n IH]; intros turns w last Hlt Hfail Hok;
    (destruct turns as [|k]; [lia|]);
    simpl upload_loop; unfold bind; rewrite upload_attempt_eq.
  - rewrite Nat.add_0_r in Hok. rewrite Hok.
    exists (sent env rq w). simpl. repeat split. lia.
  - pose proof (Hfail 0%nat ltac:(lia)) as H0.
    rewrite Nat.add_0_r in H0.
    destruct (attempt_error (serve env (nreq w) rq)) as [e|] eqn:E0;
      [clear H0 | congruence].
    destruct (IH k (slept 2000 (sent env rq w)) (Some e)) as (w' & Hrun & Htr & Hn).
    + lia.
    + intros i Hi. simpl.
      replace (S (nreq w + i)) with (nreq w + S i)%nat by lia.
      apply Hfail. lia.
    + simpl. replace (S (nreq w + n)) with (nreq w + S n)%nat by lia.
      exact Hok.
    + exists w'. rewrite Hrun. simpl in Htr, Hn. repeat split.
      * rewrite Htr. simpl. repeat rewrite <- app_assoc. reflexivity.
      * lia.
Qed.

(** C4.  Let the first [N] upload attempts fail (the transport raises,
    or the status is 4xx or 5xx) and let [R] be the retry budget
    [MAX_RETRIES] (3 by default).  If [N < R] and attempt [N+1]
    succeeds, the upload returns the stamped name after [N+1] requests;
    if [R <= N], so that all [R] attempts fail, it raises the 502
    upload error carrying the exception of the last attempt after
    exactly [R] requests.  Every attempt posts the same stamped name,
    and every failed attempt is followed by one sleep of 2 seconds, the
    same at each turn. *)
Theorem upload_retry_budget (img_bytes : list byte)
        (original_name base_url : string) (w : world) (N : nat) :
  let R := Z.to_nat (MAX_RETRIES cfg) in
  let stamped := stamp (now w) original_name in
  let rq := PostUpload (upload_url base_url) stamped img_bytes in
  let run := _upload_to_comfy cfg env img_bytes original_name base_url w in
  (forall i, (i < N)%nat ->
             attempt_error (serve env (nreq w + i) rq) <> None) ->
  ((N < R)%nat ->
   attempt_error (serve env (nreq w + N) rq) = None ->
   exists w',
     run = (Ok stamped, w')
     /\ trace w' = (trace w ++ cycles N rq 2000 ++ [EReq rq])%list
     /\ nreq w' = (nreq w + N + 1)%nat)
  /\ ((R <= N)%nat ->
      exists w',
        run = (Raise (HTTPException 502 (UploadFailed
                 (match R with
                  | O => None
                  | S k => attempt_error (serve env (nreq w + k) rq)
                  end))), w')
        /\ trace w' = (trace w ++ cycles R rq 2000)%list
        /\ nreq w' = (nreq w + R)%nat).
Proof.
  cbv zeta. intros Hfail.
  unfold _upload_to_comfy, bind, time. split.
  - intros Hlt Hok. apply upload_loop_succeeds; assumption.
  - intros Hle. apply upload_loop_exhausted.
    intros i Hi. apply Hfail. lia.
Qed.

End Upload.

(** ** Dictionaries *)

Section Dict.

Lemma lookup_store_same (k : string) (v : json) (d : dict) :
  PyJson.lookup k (PyJson.store k v d) = Some v.
Proof.
  induction d as [|[k' v'] r IH]; simpl.
  - rewrite String.eqb_refl. reflexivity.
  - destruct (String.eqb k k') eqn:E; simpl.
    + rewrite String.eqb_refl. reflexivity.
    + rewrite E. exact IH.
Qed.

Lemma lookup_store_other (k k' : string) (v : json) (d : dict) :
  k' <> k ->
  PyJson.lookup k' (PyJson.store k v d) = PyJson.lookup k' d.
Proof.
  intros Hne. induction d as [|[k0 v0] r IH]; simpl.
  - apply String.eqb_neq in Hne. rewrite Hne. reflexivity.
  - destruct (String.eqb k k0) eqn:E; simpl.
    + apply String.eqb_eq in E. subst k0.
      apply String.eqb_neq in Hne. rewrite Hne. reflexivity.
    + destruct (String.eqb k' k0); [reflexivity | exact IH].
Qed.

(** Storing under a key that is present rewrites that one entry where
    it stands. *)
Lemma store_in_place (k : string) (v v' : json) (d : dict) :
  PyJson.lookup k d = Some v ->
  exists before after,
    d = (before ++ (k, v) :: after)%list
    /\ PyJson.lookup k before = None
    /\ PyJson.store k v' d = (before ++ (k, v') :: after)%list.
Proof.
  induction d as [|[k0 v0] r IH]; simpl; [discriminate|].
  destruct (String.eqb k k0) eqn:E.
  - intros H. injection H as ->. apply String.eqb_eq in E. subst k0.
    exists [], r. auto.
  - intros H. destruct (IH H) as (b & a & Hd & Hb & Hs).
    exists ((k0, v0) :: b), a. simpl. rewrite E, Hd at 1.
    repeat split; [exact Hb | rewrite Hs; reflexivity].
Qed.

Lemma store_absent (k : string) (v : json) (d : dict) :
  PyJson.lookup k d = None ->
  PyJson.store k v d = (d ++ [(k, v)])%list.
Proof.
  induction d as [|[k0 v0] r IH]; simpl; [reflexivity|].
  destruct (String.eqb k k0); [discriminate|].
  intros H. rewrite (IH H). reflexivity.
Qed.

End Dict.

(** ** Binding the uploaded image into the graph *)

Section Binder.

Variable cfg : config.

Lemma find_input_node_present (nodes : dict) (node : json) :
  PyJson.lookup (INPUT_NODE_ID cfg) nodes = Some node ->
  PyJson.truthy node = true ->
  forall w, find_input_node cfg (JObj nodes) w = (Ok node, w).
Proof.
  intros Hnode Ht w. unfold find_input_node, bind, py_get, ret.
  rewrite Hnode, Ht. reflexivity.
Qed.

(** When the lookup by name finds nothing truthy, the outcome is
    decided by [int(INPUT_NODE_ID)]. *)
Lemma find_input_node_falsy (nodes : dict) :
  PyJson.truthy (match PyJson.lookup (INPUT_NODE_ID cfg) nodes with
                 | Some v => v
                 | None => JNull
                 end) = false ->
  forall w, find_input_node cfg (JObj nodes) w
            = (match PyStr.to_int (INPUT_NODE_ID cfg) with
               | Some _ => Ok JNull
               | None => Raise ValueError
               end, w).
Proof.
  intros Hf w. unfold find_input_node, bind, py_get, ret.
  rewrite Hf. destruct (PyStr.to_int (INPUT_NODE_ID cfg)); reflexivity.
Qed.

(** C3.  Let the template be a mapping in which the input node id is
    present as a node definition: a non-empty mapping whose [inputs]
    entry, when there is one, is a mapping.  Binding succeeds without
    touching the world and returns the template with that one node
    rewritten where it stands: the node's [inputs] holds the asset
    reference under [image], an absent [inputs] having been created
    empty first; the other entries of [inputs], the other fields of the
    node and every other node, keys and order included, are those of
    the template. *)
Theorem bind_sets_image_only (nodes fields : dict) (comfy_name : string)
        (w : world) :
  PyJson.lookup (INPUT_NODE_ID cfg) nodes = Some (JObj fields) ->
  fields <> [] ->
  (forall i, PyJson.lookup "inputs" fields = Some i ->
             exists ins, i = JObj ins) ->
  exists before after fields' ins ins',
    bind_input cfg (JObj nodes) comfy_name w
    = (Ok (JObj (before ++ (INPUT_NODE_ID cfg, JObj fields') :: after)), w)
    /\ nodes = (before ++ (INPUT_NODE_ID cfg, JObj fields) :: after)%list
    /\ PyJson.lookup (INPUT_NODE_ID cfg) before = None
    /\ PyJson.lookup "inputs" fields' = Some (JObj ins')
    /\ PyJson.lookup "image" ins' = Some (JStr comfy_name)
    /\ (forall k, k <> "image" -> PyJson.lookup k ins' = PyJson.lookup k ins)
    /\ (forall k, k <> "inputs" ->
                  PyJson.lookup k fields' = PyJson.lookup k fields)
    /\ match PyJson.lookup "inputs" fields with
       | Some i => i = JObj ins
       | None => ins = []
                 /\ fields' = (fields ++ [("inputs",
                                 JObj [("image", JStr comfy_name)])])%list
       end.
Proof.
  intros Hnode Hne Hins.
  set (ins := match PyJson.lookup "inputs" fields with
              | Some (JObj i) => i
              | _ => []
              end).
  set (ins' := PyJson.store "image" (JStr comfy_name) ins).
  set (fields' := PyJson.store "inputs" (JObj ins') fields).
  destruct (store_in_place _ _ (JObj fields') _ Hnode)
    as (before & after & Hsplit & Hbefore & Hstore).
  exists before, after, fields', ins, ins'.
  assert (Hset : set_image (JObj fields) comfy_name w
                 = (Ok (JObj fields'), w)).
  { unfold set_image, fields', ins', ins.
    destruct (PyJson.lookup "inputs" fields) as [i|] eqn:Ei;
      [|reflexivity].
    destruct (Hins i eq_refl) as (i0 & ->). reflexivity. }
  split; [|repeat split].
  - assert (Ht : PyJson.truthy (JObj fields) = true)
      by (destruct fields; [congruence | reflexivity]).
    unfold bind_input, bind.
    rewrite (find_input_node_present _ _ Hnode Ht w), Ht.
    cbn [negb]. rewrite Hset, Hstore. reflexivity.
  - exact Hsplit.
  - exact Hbefore.
  - apply lookup_store_same.
  - apply lookup_store_same.
  - intros k Hk. apply lookup_store_other. exact Hk.
  - intros k Hk. apply lookup_store_other. exact Hk.
  - unfold fields', ins', ins.
    destruct (PyJson.lookup "inputs" fields) as [i|] eqn:Ei.
    + destruct (Hins i eq_refl) as (i0 & ->). reflexivity.
    + split; [reflexivity|]. apply store_absent. exact Ei.
Qed.

End Binder.

(** ** The request as a whole *)

Lemma bind_ok {A B} (m : M A) (k : A -> M B) (w w' : world) (b : B) :
  bind m k w = (Ok b, w') ->
  exists a w1, m w = (Ok a, w1) /\ k a w1 = (Ok b, w').
Proof.
  unfold bind. destruct (m w) as [[a|e|] w1]; intros H;
    [eauto | discriminate | discriminate].
Qed.

Lemma length_append (a b : string) :
  String.length (a ++ b) = (String.length a + String.length b)%nat.
Proof. induction a as [|c r IH]; simpl; [reflexivity | now rewrite IH]. Qed.

(** The stamped name is longer than the name it is built from, so it
    cannot occur inside it. *)
Lemma stamp_not_inside (t : Z) (name before after : string) :
  name <> before ++ stamp t name ++ after.
Proof.
  intros H. apply (f_equal String.length) in H.
  unfold stamp in H. repeat rewrite length_append in H. simpl in H. lia.
Qed.

Lemma append_empty_r (s : string) : s ++ "" = s.
Proof. induction s as [|c r IH]; simpl; [|rewrite IH]; reflexivity. Qed.

Lemma drop_final_quote_app (name : string) :
  drop_final_quote (name ++ String "034" "") = Some name.
Proof.
  induction name as [|c r IH]; [reflexivity|].
  change (String c r ++ String "034" "")
    with (String c (r ++ String "034" "")).
  cbn [drop_final_quote]. rewrite IH.
  destruct r; reflexivity.
Qed.

(** The header built around a name suggests that name. *)
Lemma suggested_filename_of_header (name : string) :
  suggested_filename
    ("attachment; filename=" ++ String "034" (name ++ String "034" ""))
  = Some name.
Proof.
  unfold suggested_filename. cbn [append drop_prefix Ascii.eqb Bool.eqb].
  apply drop_final_quote_app.
Qed.

Section Orchestrator.

Variable cfg : config.
Variable env : environment.

(** Whatever the remote answers, an upload ends in one of two ways, and
    its trace holds nothing but its own posts and backoffs. *)
Lemma upload_loop_outcome (rq : request) (stamped : string) :
  forall (turns : nat) (w : world) (last : option exn),
  exists w',
    (exists n, (n < turns)%nat
               /\ upload_loop env turns rq stamped last w = (Ok stamped, w')
               /\ trace w' = (trace w ++ cycles n rq 2000 ++ [EReq rq])%list)
    \/ (exists e,
           upload_loop env turns rq stamped last w
           = (Raise (HTTPException 502 (UploadFailed e)), w')
           /\ trace w' = (trace w ++ cycles turns rq 2000)%list).
Proof.
  induction turns as [|k IH]; intros w last.
  - exists w. right. exists last. simpl. rewrite app_nil_r. auto.
  - simpl upload_loop. unfold bind. rewrite upload_attempt_eq.
    destruct (attempt_error (serve env (nreq w) rq)) as [e|].
    + destruct (IH (slept 2000 (sent env rq w)) (Some e))
        as (w' & [(n & Hn & Hrun & Htr) | (e' & Hrun & Htr)]);
        exists w'; [left; exists (S n) | right; exists e'];
        rewrite Hrun, Htr; simpl; repeat rewrite <- app_assoc;
        repeat split; try reflexivity; lia.
    + exists (sent env rq w). left. exists 0%nat. simpl.
      repeat split. lia.
Qed.

Lemma upload_returns_stamp (file : list byte) (name base : string)
      (w w1 : world) (x : string) :
  _upload_to_comfy cfg env file name base w = (Ok x, w1) ->
  x = stamp (now w) name.
Proof.
  unfold _upload_to_comfy, bind, time. intros H.
  destruct (upload_loop_outcome
              (PostUpload (upload_url base) (stamp (now w) name) file)
              (stamp (now w) name) (Z.to_nat (MAX_RETRIES cfg)) w None)
    as (w' & [(n & _ & Hrun & _) | (e & Hrun & _)]);
    rewrite Hrun in H; [injection H as <- _; reflexivity | discriminate].
Qed.

Lemma mask_after_upload (fuel : nat) (file : list byte)
      (filename x_api_key x_comfy_url comfy_url comfy_url_query
         : option string)
      (w w1 : world) (base comfy_name : string) (graph : json) :
  _require_key cfg x_api_key w = (Ok tt, w) ->
  _pick_comfy_url comfy_url x_comfy_url comfy_url_query w = (Ok base, w) ->
  _upload_to_comfy cfg env file (name_of_upload filename) base w
  = (Ok comfy_name, w1) ->
  read_json_file env (WORKFLOW_JSON cfg) = inr graph ->
  mask cfg env fuel file filename x_api_key x_comfy_url comfy_url
       comfy_url_query w
  = (graph' <- bind_input cfg graph comfy_name ;;
     pid <- _queue_prompt env graph' base ;;
     history <- _poll_history cfg env fuel pid base ;;
     out_bytes <- _fetch_first_image cfg env history pid base ;;
     ret (mkStreaming out_bytes "application/octet-stream"
                      (attachment (name_of_upload filename)))) w1.
Proof.
  intros Hkey Hpick Hup Hfile.
  unfold mask. unfold bind at 1. rewrite Hkey.
  unfold bind at 1. rewrite Hpick.
  unfold bind at 1. cbv zeta. rewrite Hup.
  unfold bind at 1. unfold load_workflow. rewrite Hfile. reflexivity.
Qed.

Lemma mask_upload_failed (fuel : nat) (file : list byte)
      (filename x_api_key x_comfy_url comfy_url comfy_url_query
         : option string)
      (w w1 : world) (base : string) (e : exn) :
  _require_key cfg x_api_key w = (Ok tt, w) ->
  _pick_comfy_url comfy_url x_comfy_url comfy_url_query w = (Ok base, w) ->
  _upload_to_comfy cfg env file (name_of_upload filename) base w
  = (Raise e, w1) ->
  mask cfg env fuel file filename x_api_key x_comfy_url comfy_url
       comfy_url_query w
  = (Raise e, w1).
Proof.
  intros Hkey Hpick Hup.
  unfold mask. unfold bind at 1. rewrite Hkey.
  unfold bind at 1. rewrite Hpick.
  unfold bind at 1. cbv zeta. rewrite Hup. reflexivity.
Qed.

(** C5.  When a [/mask] request succeeds, the Content-Disposition header
    of the response is [attachment; filename=], a quote, the file name
    the caller sent, a quote; so the file name the response suggests is
    the caller's, character for character ([image.png] when the caller
    sent no name or an empty one).  This holds for every remote,
    whatever it answers.  The image was uploaded under another name, the
    clock reading at entry, an underscore and the caller's name; the
    suggested name is not that stamped name, and no stamped name,
    whatever the clock reading in it, occurs inside it. *)
Theorem response_filename_is_original (fuel : nat) (file : list byte)
        (filename x_api_key x_comfy_url comfy_url comfy_url_query
           : option string)
        (w w' : world) (resp : streaming_response) :
  mask cfg env fuel file filename x_api_key x_comfy_url comfy_url
       comfy_url_query w = (Ok resp, w') ->
  (forall name,
      filename = Some name -> name <> "" ->
      content_disposition resp
      = "attachment; filename=" ++ String "034" (name ++ String "034" "")
      /\ suggested_filename (content_disposition resp) = Some name)
  /\ (filename = None \/ filename = Some "" ->
      content_disposition resp
      = "attachment; filename="
        ++ String "034" ("image.png" ++ String "034" "")
      /\ suggested_filename (content_disposition resp) = Some "image.png")
  /\ (exists original base w1,
         suggested_filename (content_disposition resp) = Some original
         /\ _upload_to_comfy cfg env file original base w
            = (Ok (PyStr.of_Z (now w) ++ "_" ++ original), w1)
         /\ original <> PyStr.of_Z (now w) ++ "_" ++ original
         /\ (forall t before after,
                original <> before ++ stamp t original ++ after)).
Proof.
  intros H.
  assert (Hd : content_disposition resp
               = "attachment; filename="
                 ++ String "034" (name_of_upload filename
                                  ++ String "034" "")).
  { unfold mask in H.
    repeat (apply bind_ok in H; destruct H as (? & ? & _ & H)).
    unfold ret in H. injection H as <- _. reflexivity. }
  assert (Hs : suggested_filename (content_disposition resp)
               = Some (name_of_upload filename)).
  { rewrite Hd. apply suggested_filename_of_header. }
  split; [|split].
  - intros name -> Hne. rewrite Hs, Hd. simpl name_of_upload.
    destruct name; [congruence | split; reflexivity].
  - intros [-> | ->]; rewrite Hs, Hd; split; reflexivity.
  - unfold mask in H.
    apply bind_ok in H. destruct H as (u & w0 & Hkey & H).
    apply require_key_world in Hkey. subst w0.
    apply bind_ok in H. destruct H as (base & w0 & Hpick & H).
    rewrite pick_comfy_url_eq in Hpick. injection Hpick as _ <-.
    apply bind_ok in H. destruct H as (comfy_name & w1 & Hup & _).
    exists (name_of_upload filename), base, w1. cbv zeta in Hup.
    split; [exact Hs|]. split.
    + rewrite Hup. apply upload_returns_stamp in Hup. rewrite Hup.
      reflexivity.
    + split.
      * intros E.
        apply (stamp_not_inside (now w) (name_of_upload filename) "" "").
        unfold stamp. simpl. rewrite append_empty_r. exact E.
      * intros t before after. apply stamp_not_inside.
Qed.

End Orchestrator.

(** ** A template without the input node *)

Section MissingNode.

Variable cfg : config.
Variable env : environment.

Lemma bind_input_not_found (nodes : dict) (comfy_name : string)
      (w : world) :
  PyJson.lookup (INPUT_NODE_ID cfg) nodes = None ->
  bind_input cfg (JObj nodes) comfy_name w
  = (match PyStr.to_int (INPUT_NODE_ID cfg) with
     | Some _ => Raise (HTTPException 500
                          (InputNodeNotFound (INPUT_NODE_ID cfg)))
     | None => Raise ValueError
     end, w).
Proof.
  intros Habs. unfold bind_input, bind.
  rewrite find_input_node_falsy by (rewrite Habs; reflexivity).
  destruct (PyStr.to_int (INPUT_NODE_ID cfg)); reflexivity.
Qed.

Lemma set_image_no_http (node : json) (name : string) (w w' : world)
      (code : Z) (d : detail) :
  set_image node name w <> (Raise (HTTPException code d), w').
Proof.
  unfold set_image. destruct node as [| | | | |fields]; try discriminate.
  destruct (PyJson.lookup "inputs" fields) as [[| | | | |ins]|];
    discriminate.
Qed.

(** C2, as the code has it.  Take a [/mask] request whose key is
    accepted and whose endpoint resolves, a workflow file that holds a
    mapping lacking the input node id as a key, and an id that reads as
    an integer.  The image is uploaded first: the request fails either
    with the 502 upload error, after the [MAX_RETRIES] failed posts, or
    with the 500 configuration error "input node not found", after an
    upload that succeeded.  In both cases the only network calls made
    are the upload posts; no prompt, history or view request is sent. *)
Theorem missing_node_fails_after_upload (fuel : nat) (file : list byte)
        (filename x_api_key x_comfy_url comfy_url comfy_url_query
           : option string)
        (w : world) (base : string) (nodes : dict) :
  _require_key cfg x_api_key w = (Ok tt, w) ->
  _pick_comfy_url comfy_url x_comfy_url comfy_url_query w = (Ok base, w) ->
  read_json_file env (WORKFLOW_JSON cfg) = inr (JObj nodes) ->
  PyJson.lookup (INPUT_NODE_ID cfg) nodes = None ->
  PyStr.to_int (INPUT_NODE_ID cfg) <> None ->
  let stamped := stamp (now w) (name_of_upload filename) in
  let rq := PostUpload (upload_url base) stamped file in
  let run := mask cfg env fuel file filename x_api_key x_comfy_url
                  comfy_url comfy_url_query w in
  exists w',
    (exists n,
        (n < Z.to_nat (MAX_RETRIES cfg))%nat
        /\ run = (Raise (HTTPException 500
                           (InputNodeNotFound (INPUT_NODE_ID cfg))), w')
        /\ trace w' = (trace w ++ cycles n rq 2000 ++ [EReq rq])%list)
    \/ (exists e,
           run = (Raise (HTTPException 502 (UploadFailed e)), w')
           /\ trace w' = (trace w ++ cycles (Z.to_nat (MAX_RETRIES cfg))
                                            rq 2000)%list).
Proof.
  cbv zeta. intros Hkey Hpick Hfile Habs Hint.
  destruct (upload_loop_outcome env
              (PostUpload (upload_url base)
                          (stamp (now w) (name_of_upload filename)) file)
              (stamp (now w) (name_of_upload filename))
              (Z.to_nat (MAX_RETRIES cfg)) w None)
    as (w' & [(n & Hn & Hrun & Htr) | (e & Hrun & Htr)]);
    exists w'.
  - left. exists n. split; [exact Hn|]. split; [|exact Htr].
    rewrite (mask_after_upload cfg env fuel file filename _ _ _ _ w w'
               base _ (JObj nodes) Hkey Hpick Hrun Hfile).
    unfold bind at 1. rewrite bind_input_not_found by exact Habs.
    destruct (PyStr.to_int (INPUT_NODE_ID cfg)); [reflexivity|congruence].
  - right. exists e. split; [|exact Htr].
    apply mask_upload_failed with (base := base); assumption.
Qed.

(** C10.  Let the input node id be a string that [int] rejects and that
    is not a key of the template.  The node lookup then raises
    [ValueError], and a [/mask] request that got as far as the lookup
    ends with that exception unhandled instead of the "input node not
    found" configuration error.  With such an id the configuration
    error is out of reach for every graph: it is raised only when the
    id reads as an integer. *)
Theorem non_integer_node_id_raises_value_error (fuel : nat)
        (file : list byte)
        (filename x_api_key x_comfy_url comfy_url comfy_url_query
           : option string)
        (w w1 : world) (base comfy_name : string) (nodes : dict) :
  PyStr.to_int (INPUT_NODE_ID cfg) = None ->
  PyJson.lookup (INPUT_NODE_ID cfg) nodes = None ->
  bind_input cfg (JObj nodes) comfy_name w1 = (Raise ValueError, w1)
  /\ (_require_key cfg x_api_key w = (Ok tt, w) ->
      _pick_comfy_url comfy_url x_comfy_url comfy_url_query w
      = (Ok base, w) ->
      _upload_to_comfy cfg env file (name_of_upload filename) base w
      = (Ok comfy_name, w1) ->
      read_json_file env (WORKFLOW_JSON cfg) = inr (JObj nodes) ->
      mask cfg env fuel file filename x_api_key x_comfy_url comfy_url
           comfy_url_query w = (Raise ValueError, w1))
  /\ (forall graph name w0 w0' code d,
         bind_input cfg graph name w0
         <> (Raise (HTTPException code d), w0')).
Proof.
  intros Hint Habs.
  assert (Hb : forall w0, bind_input cfg (JObj nodes) comfy_name w0
                          = (Raise ValueError, w0)).
  { intros w0. rewrite bind_input_not_found by exact Habs.
    rewrite Hint. reflexivity. }
  split; [apply Hb | split].
  - intros Hkey Hpick Hup Hfile.
    rewrite (mask_after_upload cfg env fuel file filename _ _ _ _ w w1
               base _ (JObj nodes) Hkey Hpick Hup Hfile).
    unfold bind at 1. rewrite Hb. reflexivity.
  - intros graph name w0 w0' code d.
    destruct graph as [| | | | |ns]; try discriminate.
    unfold bind_input, bind.
    destruct (PyJson.lookup (INPUT_NODE_ID cfg) ns) as [v|] eqn:El;
      [destruct (PyJson.truthy v) eqn:Et|].
    + rewrite (find_input_node_present cfg _ _ El Et w0), Et. cbn [negb].
      destruct (set_image v name w0) as [[node'|e|] w2] eqn:Es;
        try discriminate.
      intros H. injection H as -> ->.
      exact (set_image_no_http _ _ _ _ _ _ Es).
    + rewrite find_input_node_falsy by (rewrite El; exact Et).
      rewrite Hint. discriminate.
    + rewrite find_input_node_falsy by (rewrite El; reflexivity).
      rewrite Hint. discriminate.
Qed.

End MissingNode.

(** ** Selecting the output node *)

Section Stateless.

Lemma stateless_ret {A} (a : A) : stateless (ret a).
Proof. exists (Ok a). split; [discriminate | reflexivity]. Qed.

Lemma stateless_raise {A} (e : exn) : stateless (@raise A e).
Proof. exists (Raise e). split; [discriminate | reflexivity]. Qed.

Lemma stateless_bind {A B} (m : M A) (k : A -> M B) :
  stateless m -> (forall a, stateless (k a)) -> stateless (bind m k).
Proof.
  intros (r & Hr & Hm) Hk. unfold bind.
  destruct r as [a|e|]; [| |congruence].
  - destruct (Hk a) as (rb & Hrb & Hka). exists rb. split; [exact Hrb|].
    intros w. rewrite Hm. apply Hka.
  - exists (Raise e). split; [discriminate|].
    intros w. rewrite Hm. reflexivity.
Qed.

Lemma stateless_if {A} (b : bool) (m1 m2 : M A) :
  stateless m1 -> stateless m2 -> stateless (if b then m1 else m2).
Proof. destruct b; auto. Qed.

Lemma stateless_py_get (v : json) (k : string) (d : json) :
  stateless (py_get v k d).
Proof.
  destruct v; simpl; first [apply stateless_ret | apply stateless_raise].
Qed.

Lemma stateless_py_getitem (v : json) (k : string) :
  stateless (py_getitem v k).
Proof.
  destruct v; simpl; try apply stateless_raise.
  unfold lift. destruct (PyJson.lookup k fields);
    [apply stateless_ret | apply stateless_raise].
Qed.

Lemma stateless_py_items (v : json) : stateless (py_items v).
Proof.
  destruct v; simpl; first [apply stateless_ret | apply stateless_raise].
Qed.

Lemma stateless_py_in (k : string) (v : json) : stateless (py_in k v).
Proof.
  destruct v; simpl; first [apply stateless_ret | apply stateless_raise].
Qed.

Lemma stateless_response_json (r : response) :
  stateless (response_json r).
Proof.
  unfold response_json, lift.
  destruct (json_body r); [apply stateless_ret | apply stateless_raise].
Qed.

Variable cfg : config.

Lemma stateless_first_with_images (node : json) (items : dict) :
  stateless (first_with_images node items).
Proof.
  induction items as [|[k v] rest IH]; simpl; [apply stateless_ret|].
  apply stateless_bind; [apply stateless_py_get|].
  intros imgs. apply stateless_if; [apply stateless_ret | exact IH].
Qed.

Lemma stateless_select_node (outputs : json) :
  stateless (select_node cfg outputs).
Proof.
  unfold select_node.
  apply stateless_bind; [apply stateless_py_get|].
  intros node. apply stateless_if; [|apply stateless_ret].
  apply stateless_bind; [apply stateless_py_items|].
  intros items. apply stateless_first_with_images.
Qed.

Lemma stateless_has_images (node : json) : stateless (has_images node).
Proof.
  unfold has_images. apply stateless_if; [|apply stateless_ret].
  apply stateless_bind; [apply stateless_py_get|].
  intros imgs. apply stateless_ret.
Qed.

(** Entries without images are passed over by the fallback loop. *)
Lemma first_with_images_skip (node : json) (skipped rest : dict)
      (w : world) :
  Forall (fun kv => lacks_images (snd kv)) skipped ->
  first_with_images node (skipped ++ rest)%list w
  = first_with_images node rest w.
Proof.
  induction 1 as [|[k v] l (f & Hv & Hf) _ IH]; simpl; [reflexivity|].
  simpl in Hv. subst v. unfold bind, py_get, ret.
  fold (get_or_null "images" f). fold (images_of f). rewrite Hf.
  exact IH.
Qed.

Lemma first_with_images_hit (node v : json) (k : string) (rest : dict)
      (w : world) :
  bears_images v ->
  first_with_images node ((k, v) :: rest) w = (Ok v, w).
Proof.
  intros (f & -> & Hf). simpl. unfold bind, py_get, ret.
  fold (get_or_null "images" f). fold (images_of f). rewrite Hf.
  reflexivity.
Qed.

(** The preferred entry wins as soon as it is truthy. *)
Lemma select_node_preferred (outs : dict) (node : json) (w : world) :
  PyJson.lookup (OUTPUT_NODE_ID cfg) outs = Some node ->
  PyJson.truthy node = true ->
  select_node cfg (JObj outs) w = (Ok node, w).
Proof.
  intros Hl Ht. unfold select_node, bind, py_get, ret.
  rewrite Hl, Ht. reflexivity.
Qed.

(** Otherwise the first entry with images is taken. *)
Lemma select_node_fallback (outs skipped rest : dict) (k : string)
      (v : json) (w : world) :
  PyJson.truthy (get_or_null (OUTPUT_NODE_ID cfg) outs) = false ->
  outs = (skipped ++ (k, v) :: rest)%list ->
  Forall (fun kv => lacks_images (snd kv)) skipped ->
  bears_images v ->
  select_node cfg (JObj outs) w = (Ok v, w).
Proof.
  intros Hf Hsplit Hskip Hv. unfold select_node, bind, py_get, ret.
  fold (get_or_null (OUTPUT_NODE_ID cfg) outs). rewrite Hf.
  cbn [negb py_items ret]. rewrite Hsplit.
  rewrite first_with_images_skip by exact Hskip.
  apply first_with_images_hit. exact Hv.
Qed.

Lemma has_images_obj (fields : dict) (w : world) :
  has_images (JObj fields) w
  = (Ok (PyJson.truthy (JObj fields)
         && PyJson.truthy (images_of fields)), w).
Proof.
  unfold has_images.
  destruct (PyJson.truthy (JObj fields)); reflexivity.
Qed.

End Stateless.

(** ** Fetching the artifact *)

Lemma py_getitem_obj (d : dict) (k : string) (v : json) (w : world) :
  PyJson.lookup k d = Some v -> py_getitem (JObj d) k w = (Ok v, w).
Proof. intros H. simpl. rewrite H. reflexivity. Qed.

Lemma lookup_some_nonempty (d : dict) (k : string) (v : json) :
  PyJson.lookup k d = Some v -> PyJson.truthy (JObj d) = true.
Proof. destruct d; [discriminate | reflexivity]. Qed.

Section Fetcher.

Variable cfg : config.
Variable env : environment.

(** C7.  Let the status document hold, under the job id, an entry with
    an [outputs] field, and let the node selection return [node].  If
    [node] is a mapping whose [images] sequence starts with a
    descriptor that has a file name, the fetcher sends one request, to
    the view route, whose query is that first descriptor's [filename],
    its [subfolder] (or the empty string) and its [type] (or [output]),
    and returns the payload; the descriptors after the first play no
    part.  If the selection located no node with images, the fetcher
    raises the 500 "No output images found" error without any
    request. *)
Theorem fetch_first_descriptor (docs e : dict) (outputs node : json)
        (prompt_id base_url : string) (w : world) :
  PyJson.lookup prompt_id docs = Some (JObj e) ->
  PyJson.lookup "outputs" e = Some outputs ->
  select_node cfg outputs w = (Ok node, w) ->
  (forall fields info rest filename,
      node = JObj fields ->
      PyJson.lookup "images" fields = Some (JArr (JObj info :: rest)) ->
      PyJson.lookup "filename" info = Some filename ->
      _fetch_first_image cfg env (JObj docs) prompt_id base_url w
      = download env (GetView (view_url base_url)
                              (descriptor_params info filename)) w
      /\ (PyJson.lookup "subfolder" info = None ->
          PyJson.lookup "type" info = None ->
          descriptor_params info filename
          = [("filename", filename); ("subfolder", JStr "");
             ("type", JStr "output")]))
  /\ (has_images node w = (Ok false, w) ->
      _fetch_first_image cfg env (JObj docs) prompt_id base_url w
      = (Raise no_images, w)).
Proof.
  intros Hdoc Hout Hsel.
  split.
  - intros fields info rest filename -> Himg Hfn. split.
    + unfold _fetch_first_image.
      unfold bind at 1. rewrite (py_getitem_obj _ _ _ _ Hdoc).
      unfold bind at 1. rewrite (py_getitem_obj _ _ _ _ Hout).
      unfold bind at 1. rewrite Hsel.
      unfold bind at 1. rewrite has_images_obj.
      rewrite (lookup_some_nonempty _ _ _ Himg).
      unfold images_of, get_or_null. rewrite Himg. cbn [PyJson.truthy andb negb].
      unfold bind at 1. rewrite (py_getitem_obj _ _ _ _ Himg).
      unfold bind at 1. cbn [py_first ret].
      unfold bind at 1. rewrite (py_getitem_obj _ _ _ _ Hfn).
      unfold bind at 1. cbn [py_get ret].
      unfold bind at 1. cbn [py_get ret].
      unfold bind, send, download, raise_for_status, descriptor_params,
        sent, ret, raise.
      destruct (serve env (nreq w) _) as [msg|a]; [reflexivity|].
      destruct ((400 <=? status_code a) && (status_code a <? 600));
        reflexivity.
    + intros Hs Ht. unfold descriptor_params. rewrite Hs, Ht. reflexivity.
  - intros Hno. unfold _fetch_first_image.
    unfold bind at 1. rewrite (py_getitem_obj _ _ _ _ Hdoc).
    unfold bind at 1. rewrite (py_getitem_obj _ _ _ _ Hout).
    unfold bind at 1. rewrite Hsel.
    unfold bind at 1. rewrite Hno. reflexivity.
Qed.

End Fetcher.

(** ** Polling *)

Section Poller.

Variable cfg : config.
Variable env : environment.
Variables prompt_id base_url : string.

Local Abbreviation rq := (GetHistory (history_url base_url prompt_id)).

Lemma stateless_inspect_status (r : response) :
  stateless (inspect_status cfg prompt_id r).
Proof.
  unfold inspect_status.
  apply stateless_if; [|apply stateless_ret].
  apply stateless_bind; [apply stateless_response_json|]. intros hist.
  apply stateless_bind;
    [apply stateless_if; [apply stateless_py_in | apply stateless_ret]|].
  intros present. apply stateless_if; [|apply stateless_ret].
  apply stateless_bind; [apply stateless_py_getitem|]. intros entry.
  apply stateless_bind; [apply stateless_py_get|]. intros outputs.
  apply stateless_bind; [apply stateless_select_node|]. intros node.
  apply stateless_bind; [apply stateless_has_images|]. intros ready.
  apply stateless_if; apply stateless_ret.
Qed.

(** One iteration sends one request; the rest of it leaves the world as
    it is. *)
Lemma poll_once_eq (w : world) :
  exists res,
    res <> OutOfFuel
    /\ poll_once cfg env prompt_id base_url w = (res, sent env rq w)
    /\ (forall r, serve env (nreq w) rq = Answer r ->
                  forall w0, inspect_status cfg prompt_id r w0 = (res, w0)).
Proof.
  unfold poll_once, bind, send. fold (sent env rq w).
  destruct (serve env (nreq w) rq) as [msg|r] eqn:E.
  - exists (Raise (RequestError msg)).
    repeat split; [discriminate | discriminate].
  - destruct (stateless_inspect_status r) as (res & Hres & Hall).
    exists res. rewrite Hall. repeat split; [exact Hres|].
    intros r0 H0. injection H0 as <-. exact Hall.
Qed.

Lemma poll_loop_S (fuel : nat) (deadline : span) (w : world) :
  poll_loop cfg env (S fuel) prompt_id base_url deadline w
  = if before (now w) deadline then
      match poll_once cfg env prompt_id base_url w with
      | (Ok (Some hist), w1) => (Ok hist, w1)
      | (Ok None, w1) =>
          (sleep (POLL_INTERVAL_MS cfg) ;;
           poll_loop cfg env fuel prompt_id base_url deadline) w1
      | (Raise e, w1) => (Raise e, w1)
      | (OutOfFuel, w1) => (OutOfFuel, w1)
      end
    else (Raise timed_out, w).
Proof.
  cbn [poll_loop]. unfold bind at 1, time.
  destruct (before (now w) deadline); [|reflexivity].
  unfold bind at 1.
  destruct (poll_once cfg env prompt_id base_url w) as [[[h|]|e|] w1];
    reflexivity.
Qed.



(** More fuel does not change a run that ended. *)
Lemma poll_loop_more_fuel (deadline : span) :
  forall (fuel fuel' : nat) (w w' : world) (res : outcome json),
    poll_loop cfg env fuel prompt_id base_url deadline w = (res, w') ->
    res <> OutOfFuel ->
    (fuel <= fuel')%nat ->
    poll_loop cfg env fuel' prompt_id base_url deadline w = (res, w').
Proof.
  induction fuel as [|k IH]; intros fuel' w w' res Hrun Hres Hle.
  - simpl in Hrun. injection Hrun as <- _. congruence.
  - destruct fuel' as [|k']; [lia|].
    rewrite poll_loop_S in *.
    destruct (before (now w) deadline); [|exact Hrun].
    destruct (poll_once cfg env prompt_id base_url w)
      as [[[h|]|e|] w1]; try exact Hrun.
    unfold bind in *.
    destruct (sleep (POLL_INTERVAL_MS cfg) w1) as [[u|e|] w2];
      try exact Hrun.
    apply IH; [exact Hrun | exact Hres | lia].
Qed.





Lemma before_after_positive (t : Z) (d : span) :
  positive_timeout d -> before t (after t d) = true.
Proof.
  destruct d as [ms| |]; simpl; intros H;
    [apply Z.ltb_lt; lia | reflexivity | contradiction].
Qed.

Lemma before_after_elapsed (t : Z) (d : span) :
  elapsed_timeout d -> before t (after t d) = false.
Proof.
  destruct d as [ms| |]; simpl; intros H;
    [apply Z.ltb_ge; lia | contradiction | reflexivity].
Qed.

(** A well-formed status document that lists the job goes through the
    node selection. *)
Lemma inspect_status_doc (r : response) (docs e outs : dict) (w : world) :
  status_code r = 200 ->
  json_body r = Some (JObj docs) ->
  PyJson.lookup prompt_id docs = Some (JObj e) ->
  PyJson.lookup "outputs" e = Some (JObj outs) ->
  inspect_status cfg prompt_id r w
  = (node <- select_node cfg (JObj outs) ;;
     ready <- has_images node ;;
     if (ready : bool) then ret (Some (JObj docs)) else ret None) w.
Proof.
  intros Hst Hbody Hdoc Hout. unfold inspect_status.
  rewrite Hst. cbn [Z.eqb Pos.eqb].
  unfold bind at 1, response_json. rewrite Hbody. cbn [lift ret].
  rewrite (lookup_some_nonempty _ _ _ Hdoc).
  unfold bind at 1. cbn [py_in ret]. unfold PyJson.has_key. rewrite Hdoc.
  unfold bind at 1. rewrite (py_getitem_obj _ _ _ _ Hdoc).
  unfold bind at 1. cbn [py_get ret]. rewrite Hout. reflexivity.
Qed.

(** C1, as the code has it.  Let the answer to the status request be a
    200 whose document lists the job with an [outputs] mapping.
    (a) If that mapping has no truthy entry under the configured output
    node (the key is absent, or its value is empty) and some entry has a
    non-empty artifact sequence, the entries before the first such one
    having none, then the selection returns that first entry and the
    poller, its timeout being positive, returns the full document after
    this single request.  (b) If the entry under the configured output
    node is a non-empty mapping whose artifact sequence is missing or
    empty, the iteration is not ready whatever the other entries hold:
    no fallback is tried, and the poller sleeps and asks again. *)
Theorem poll_ready_by_fallback (fuel : nat) (w : world) (r : response)
        (docs e outs : dict) :
  serve env (nreq w) (GetHistory (history_url base_url prompt_id))
  = Answer r ->
  status_code r = 200 ->
  json_body r = Some (JObj docs) ->
  PyJson.lookup prompt_id docs = Some (JObj e) ->
  PyJson.lookup "outputs" e = Some (JObj outs) ->
  (forall skipped rest k v,
      PyJson.truthy (get_or_null (OUTPUT_NODE_ID cfg) outs) = false ->
      outs = (skipped ++ (k, v) :: rest)%list ->
      Forall (fun kv => lacks_images (snd kv)) skipped ->
      bears_images v ->
      positive_timeout (POLL_TIMEOUT_MS cfg) ->
      select_node cfg (JObj outs) w = (Ok v, w)
      /\ _poll_history cfg env (S fuel) prompt_id base_url w
         = (Ok (JObj docs),
            sent env (GetHistory (history_url base_url prompt_id)) w))
  /\ (forall fields,
         PyJson.lookup (OUTPUT_NODE_ID cfg) outs = Some (JObj fields) ->
         fields <> [] ->
         PyJson.truthy (images_of fields) = false ->
         poll_once cfg env prompt_id base_url w
         = (Ok None,
            sent env (GetHistory (history_url base_url prompt_id)) w)).
Proof.
  intros Hserve Hst Hbody Hdoc Hout.
  destruct (poll_once_eq w) as (res & _ & Honce & Hins).
  specialize (Hins r Hserve). split.
  - intros skipped rest k v Hpref Hsplit Hskip Hv Htime.
    pose proof (select_node_fallback cfg outs skipped rest k v) as Hsel.
    split; [apply Hsel; assumption|].
    unfold _poll_history, bind at 1, time. rewrite poll_loop_S.
    rewrite (before_after_positive _ _ Htime).
    rewrite Honce.
    pose proof (Hins w) as H.
    rewrite (inspect_status_doc r docs e outs w Hst Hbody Hdoc Hout) in H.
    unfold bind at 1 in H.
    rewrite (Hsel w Hpref Hsplit Hskip Hv) in H.
    destruct Hv as (f & -> & Hf).
    unfold bind at 1 in H. rewrite has_images_obj, Hf in H.
    assert (Hne : PyJson.truthy (JObj f) = true).
    { unfold images_of, get_or_null in Hf.
      destruct (PyJson.lookup "images" f) eqn:El; [|discriminate].
      exact (lookup_some_nonempty _ _ _ El). }
    rewrite Hne in H. cbn [andb ret] in H.
    injection H as <-. reflexivity.
  - intros fields Hpref Hne Himg. rewrite Honce.
    pose proof (Hins w) as H.
    rewrite (inspect_status_doc r docs e outs w Hst Hbody Hdoc Hout) in H.
    unfold bind at 1 in H.
    assert (Ht : PyJson.truthy (JObj fields) = true)
      by (destruct fields; [congruence | reflexivity]).
    rewrite (select_node_preferred cfg outs _ w Hpref Ht) in H.
    unfold bind at 1 in H. rewrite has_images_obj, Himg, Ht in H.
    cbn [andb ret] in H. injection H as <-. reflexivity.
Qed.


End Poller.

Lemma poll_history_more_fuel (cfg : config) (env : environment)
      (prompt_id base_url : string) (fuel fuel' : nat) (w w' : world)
      (res : outcome json) :
  _poll_history cfg env fuel prompt_id base_url w = (res, w') ->
  res <> OutOfFuel ->
  (fuel <= fuel')%nat ->
  _poll_history cfg env fuel' prompt_id base_url w = (res, w').
Proof.
  unfold _poll_history, bind, time. intros Hrun Hres Hle.
  exact (poll_loop_more_fuel cfg env prompt_id base_url _ fuel fuel' w w'
           res Hrun Hres Hle).
Qed.

(** ** The statements on sample runs *)

(** C1 fails as stated: the outputs hold the configured node "455" with an
    empty artifact sequence and the node "9" with one image, the remote
    serves this document at every poll, and the poller, with the default
    settings, asks 24 times and ends with the 504 timeout instead of
    returning the document, however much fuel it is given. *)
Lemma preferred_empty_times_out :
  PyJson.lookup "455" stuck_outputs = Some (JObj [("images", JArr [])])
  /\ PyJson.lookup "9" stuck_outputs
     = Some (JObj [("images", JArr [JObj sample_descriptor])])
  /\ serve (remote_with 0 stuck_outputs sample_nodes) 0 history_request
     = ok_reply (Some (JObj (status_of stuck_outputs))) []
  /\ (forall fuel, (25 <= fuel)%nat ->
        _poll_history default_config
                      (remote_with 0 stuck_outputs sample_nodes)
                      fuel "abc123" sample_base start
        = (Raise timed_out,
           mkWorld 120240 24 (cycles 24 history_request 5000))).
Proof.
  repeat split.
  intros fuel Hfuel.
  apply poll_history_more_fuel with (fuel := 25%nat);
    [vm_compute; reflexivity | discriminate | exact Hfuel].
Qed.

(** C1 on a sample: the configured node "455" is absent, the entry "12"
    has no images and the entry "9" has one; the first poll returns the
    document. *)
Lemma poll_ready_by_fallback_witness :
  _poll_history default_config
                (remote_with 0 fallback_outputs sample_nodes)
                1 "abc123" sample_base start
  = (Ok (JObj (status_of fallback_outputs)),
     sent (remote_with 0 fallback_outputs sample_nodes)
          (GetHistory (history_url sample_base "abc123")) start).
Proof.
  refine (proj2 (proj1 (poll_ready_by_fallback
            default_config (remote_with 0 fallback_outputs sample_nodes)
            "abc123" sample_base 0 start
            (mkResponse 200 (Some (JObj (status_of fallback_outputs))) [])
            (status_of fallback_outputs)
            [("outputs", JObj fallback_outputs)] fallback_outputs
            eq_refl eq_refl eq_refl eq_refl eq_refl)
          [("12", JObj [("text", JArr [JStr "done"])])] []
          "9" (JObj [("images", JArr [JObj sample_descriptor])])
          eq_refl eq_refl _ _ _)).
  - constructor; [|constructor].
    exists [("text", JArr [JStr "done"])]. split; reflexivity.
  - exists [("images", JArr [JObj sample_descriptor])]. split; reflexivity.
  - reflexivity.
Defined.



(** C2 fails as stated: the template lacks the input node "54", the
    request ends with the configuration error, and the upload request has
    been sent before. *)
Lemma missing_node_uploads_first :
  PyJson.lookup "54" bare_nodes = None
  /\ mask default_config (remote_with 0 done_outputs bare_nodes) 5
          sample_image (Some "cat.png") sample_key None
          (Some "http://h:8188") None start
     = (Raise (HTTPException 500 (InputNodeNotFound "54")),
        mkWorld 10 1 [EReq upload_request])
  /\ trace (mkWorld 10 1 [EReq upload_request]) <> trace start.
Proof.
  repeat split; try discriminate.
Qed.

(** C2 on the same sample run. *)
Lemma missing_node_fails_after_upload_witness :
  exists w',
    (exists n,
        (n < 3)%nat
        /\ mask default_config (remote_with 0 done_outputs bare_nodes) 5
                sample_image (Some "cat.png") sample_key None
                (Some "http://h:8188") None start
           = (Raise (HTTPException 500 (InputNodeNotFound "54")), w')
        /\ trace w' = (trace start ++ cycles n upload_request 2000
                                   ++ [EReq upload_request])%list)
    \/ (exists e,
           mask default_config (remote_with 0 done_outputs bare_nodes) 5
                sample_image (Some "cat.png") sample_key None
                (Some "http://h:8188") None start
           = (Raise (HTTPException 502 (UploadFailed e)), w')
           /\ trace w' = (trace start ++ cycles 3 upload_request 2000)%list).
Proof.
  apply (missing_node_fails_after_upload
           default_config (remote_with 0 done_outputs bare_nodes) 5
           sample_image (Some "cat.png") sample_key None
           (Some "http://h:8188") None start sample_base bare_nodes);
    try reflexivity.
  discriminate.
Defined.

(** C3 on the sample template, whose node "54" has no [inputs] yet. *)
Lemma bind_sets_image_only_witness :
  exists before after fields' ins ins',
    bind_input default_config (JObj sample_nodes) "0_cat.png" start
    = (Ok (JObj (before ++ ("54", JObj fields') :: after)), start)
    /\ sample_nodes
       = (before ++ ("54", JObj [("class_type", JStr "LoadImage")])
                 :: after)%list
    /\ PyJson.lookup "54" before = None
    /\ PyJson.lookup "inputs" fields' = Some (JObj ins')
    /\ PyJson.lookup "image" ins' = Some (JStr "0_cat.png")
    /\ (forall k, k <> "image" -> PyJson.lookup k ins' = PyJson.lookup k ins)
    /\ (forall k, k <> "inputs" ->
                  PyJson.lookup k fields'
                  = PyJson.lookup k [("class_type", JStr "LoadImage")])
    /\ (ins = []
        /\ fields' = [("class_type", JStr "LoadImage");
                      ("inputs", JObj [("image", JStr "0_cat.png")])]).
Proof.
  apply (bind_sets_image_only default_config sample_nodes
           [("class_type", JStr "LoadImage")] "0_cat.png" start).
  - reflexivity.
  - discriminate.
  - intros i H. discriminate H.
Defined.

(** C4 on samples: two failures then success within a budget of three;
    failures throughout. *)
Lemma upload_retry_budget_witness :
  (exists w',
      _upload_to_comfy default_config (flaky_remote 2) sample_image
                       "cat.png" sample_base start
      = (Ok "0_cat.png", w')
      /\ trace w' = (trace start ++ cycles 2 upload_request 2000
                                 ++ [EReq upload_request])%list
      /\ nreq w' = (nreq start + 2 + 1)%nat)
  /\ (exists w',
         _upload_to_comfy default_config (flaky_remote 5) sample_image
                          "cat.png" sample_base start
         = (Raise (HTTPException 502
                     (UploadFailed (Some (RequestError "connection reset")))),
            w')
         /\ trace w' = (trace start ++ cycles 3 upload_request 2000)%list
         /\ nreq w' = (nreq start + 3)%nat).
Proof.
  split.
  - apply (proj1 (upload_retry_budget default_config (flaky_remote 2)
                    sample_image "cat.png" sample_base start 2
                    ltac:(intros [|[|i]] Hi;
                            [discriminate | discriminate | lia])));
      [vm_compute; lia | reflexivity].
  - apply (proj2 (upload_retry_budget default_config (flaky_remote 5)
                    sample_image "cat.png" sample_base start 4
                    ltac:(intros [|[|[|[|i]]]] Hi;
                            [discriminate | discriminate | discriminate
                             | discriminate | lia]))).
    vm_compute. lia.
Defined.

(** C5 on the end-to-end run: the caller sent [cat.png], the image was
    uploaded as [0_cat.png], the remote calls its artifact [result.png],
    and the response suggests [cat.png]. *)
Lemma response_filename_is_original_witness :
  mask default_config (remote_with 3 done_outputs sample_nodes) 5
       sample_image (Some "cat.png") sample_key None
       (Some "http://h:8188//") None start
  = (Ok sample_response, sample_final_world)
  /\ content_disposition sample_response
     = "attachment; filename=" ++ String "034" ("cat.png" ++ String "034" "")
  /\ suggested_filename (content_disposition sample_response)
     = Some "cat.png".
Proof.
  assert (H : mask default_config (remote_with 3 done_outputs sample_nodes)
                   5 sample_image (Some "cat.png") sample_key None
                   (Some "http://h:8188//") None start
              = (Ok sample_response, sample_final_world))
    by (vm_compute; reflexivity).
  split; [exact H|].
  exact (proj1 (response_filename_is_original
                  default_config (remote_with 3 done_outputs sample_nodes) 5
                  sample_image (Some "cat.png") sample_key None
                  (Some "http://h:8188//") None start sample_final_world
                  sample_response H)
               "cat.png" eq_refl ltac:(discriminate)).
Defined.


(** C10 on a sample: the input node id is [load_image]. *)
Lemma non_integer_node_id_witness :
  bind_input named_config (JObj sample_nodes) "0_cat.png"
             (mkWorld 10 1 [EReq upload_request])
  = (Raise ValueError, mkWorld 10 1 [EReq upload_request])
  /\ mask named_config (remote_with 0 done_outputs sample_nodes) 5
          sample_image (Some "cat.png") sample_key None
          (Some "http://h:8188/") None start
     = (Raise ValueError, mkWorld 10 1 [EReq upload_request]).
Proof.
  pose proof (non_integer_node_id_raises_value_error
                named_config (remote_with 0 done_outputs sample_nodes) 5
                sample_image (Some "cat.png") sample_key None
                (Some "http://h:8188/") None start
                (mkWorld 10 1 [EReq upload_request]) sample_base
                "0_cat.png" sample_nodes eq_refl eq_refl) as (H1 & H2 & _).
  split; [exact H1|].
  apply H2; reflexivity.
Defined.

(** C7 on samples: two descriptors, of which the first is requested; and
    a preferred node without images. *)
Lemma fetch_first_descriptor_witness :
  _fetch_first_image default_config
                     (remote_with 0 done_outputs sample_nodes)
                     (JObj (status_of done_outputs)) "abc123" sample_base
                     start
  = download (remote_with 0 done_outputs sample_nodes) view_request start
  /\ _fetch_first_image default_config
                        (remote_with 0 done_outputs sample_nodes)
                        (JObj (status_of stuck_outputs)) "abc123"
                        sample_base start
     = (Raise no_images, start).
Proof.
  split.
  - apply (proj1 (fetch_first_descriptor
                    default_config (remote_with 0 done_outputs sample_nodes)
                    (status_of done_outputs)
                    [("outputs", JObj done_outputs)] (JObj done_outputs)
                    (JObj [("images",
                            JArr [JObj sample_descriptor;
                                  JObj [("filename", JStr "other.png")]])])
                    "abc123" sample_base start eq_refl eq_refl eq_refl)
                 [("images",
                   JArr [JObj sample_descriptor;
                         JObj [("filename", JStr "other.png")]])]
                 sample_descriptor
                 [JObj [("filename", JStr "other.png")]]
                 (JStr "result.png") eq_refl eq_refl eq_refl).
  - apply (proj2 (fetch_first_descriptor
                    default_config (remote_with 0 done_outputs sample_nodes)
                    (status_of stuck_outputs)
                    [("outputs", JObj stuck_outputs)] (JObj stuck_outputs)
                    (JObj [("images", JArr [])])
                    "abc123" sample_base start eq_refl eq_refl eq_refl)).
    reflexivity.
Defined.


(** ** Checks of the embedding on concrete values *)

Example rstrip_slash_ex :
  PyStr.rstrip_slash "http://h:8188///" = "http://h:8188"
  /\ PyStr.rstrip_slash "///" = ""
  /\ PyStr.rstrip_slash "a/b" = "a/b".
Proof. repeat split. Qed.

Example strip_ex : PyStr.strip "  x y  " = "x y" /\ PyStr.strip "   " = "".
Proof. repeat split. Qed.

Example to_int_ex :
  PyStr.to_int " 54 " = Some 54 /\ PyStr.to_int "1_0" = Some 10
  /\ PyStr.to_int "-7" = Some (-7) /\ PyStr.to_int "load" = None
  /\ PyStr.to_int "1__0" = None /\ PyStr.to_int "" = None
  /\ PyStr.to_int "5_" = None.
Proof. repeat split. Qed.

Example stamp_ex : stamp 171234 "cat.png" = "171234_cat.png".
Proof. reflexivity. Qed.

Example truthy_ex :
  PyJson.truthy (JObj []) = false
  /\ PyJson.truthy (JObj [("images", JArr [])]) = true
  /\ PyJson.truthy (JArr []) = false /\ PyJson.truthy JNull = false.
Proof. repeat split. Qed.

Example store_ex :
  PyJson.store "b" JNull [("a", JNum 1); ("b", JNum 2); ("c", JNum 3)]
  = [("a", JNum 1); ("b", JNull); ("c", JNum 3)]
  /\ PyJson.store "d" JNull [("a", JNum 1)] = [("a", JNum 1); ("d", JNull)].
Proof. repeat split. Qed.

(** The run of the specification's end-to-end scenario: upload, prompt,
    one poll that is not ready, one that is, and the download. *)
Example end_to_end_ex :
  mask default_config (remote_with 3 done_outputs sample_nodes) 5
       sample_image (Some "cat.png") sample_key None
       (Some "http://h:8188//") None start
  = (Ok sample_response,
     mkWorld 5050 5
       [EReq upload_request;
        EReq (PostPrompt "http://h:8188/prompt"
                (JObj [("7", JObj [("class_type", JStr "KSampler")]);
                       ("54", JObj [("class_type", JStr "LoadImage");
                                    ("inputs",
                                     JObj [("image", JStr "0_cat.png")])]);
                       ("455", JObj [("class_type", JStr "SaveImage")])]));
        EReq history_request; ESleep 5000; EReq history_request;
        EReq view_request]).
Proof. vm_compute. reflexivity. Qed.

(** A wrong key stops the request before anything else. *)
Example unauthorized_ex :
  mask default_config (remote_with 0 done_outputs sample_nodes) 5
       sample_image (Some "cat.png") (Some "guess") None
       (Some "http://h:8188/") None start
  = (Raise (HTTPException 401 (Text "Unauthorized")), start).
Proof. reflexivity. Qed.

(** * Further properties of the handlers *)

Lemma bind_step {A B} (m : M A) (k : A -> M B) (w w1 : world) (a : A) :
  m w = (Ok a, w1) -> bind m k w = k a w1.
Proof. intros H. unfold bind. rewrite H. reflexivity. Qed.

Lemma bind_raise {A B} (m : M A) (k : A -> M B) (w w1 : world) (e : exn) :
  m w = (Raise e, w1) -> bind m k w = (Raise e, w1).
Proof. intros H. unfold bind. rewrite H. reflexivity. Qed.

(** ** The key check *)

Lemma require_key_rejects (cfg : config) (k : option string) (w : world) :
  API_KEY cfg <> "" ->
  k <> Some (API_KEY cfg) ->
  _require_key cfg k w = (Raise unauthorized, w).
Proof.
  intros Hset Hk. unfold _require_key.
  destruct (API_KEY cfg) as [|c r] eqn:E; [congruence|].
  cbn [PyStr.is_empty negb andb].
  destruct k as [k|]; [|reflexivity].
  destruct (String.eqb_spec k (String c r)) as [->|_];
    [congruence | reflexivity].
Qed.

Lemma require_key_disabled (cfg : config) (k : option string) (w : world) :
  API_KEY cfg = "" -> _require_key cfg k w = (Ok tt, w).
Proof. intros E. unfold _require_key. rewrite E. reflexivity. Qed.

(** X1.  When an API key is configured and the request does not carry
    exactly that key (no key header, or another value), [/mask] and
    [/health] both end with the 401 error and leave the world as it was:
    nothing is uploaded, no file is read into a request, no endpoint is
    even chosen. *)
Theorem unauthorized_request_does_nothing (cfg : config) (env : environment)
        (fuel : nat) (file : list byte)
        (filename x_api_key x_comfy_url comfy_url comfy_url_query
           : option string) (w : world) :
  API_KEY cfg <> "" ->
  x_api_key <> Some (API_KEY cfg) ->
  mask cfg env fuel file filename x_api_key x_comfy_url comfy_url
       comfy_url_query w = (Raise unauthorized, w)
  /\ health cfg x_api_key x_comfy_url comfy_url_query w
     = (Raise unauthorized, w).
Proof.
  intros Hset Hk. unfold mask, health, bind.
  rewrite (require_key_rejects cfg x_api_key w Hset Hk). split; reflexivity.
Qed.

(** X2.  With an empty [API_KEY] the key check is off: the key header
    has no influence at all on what [/mask] and [/health] do. *)
Theorem empty_api_key_disables_check (cfg : config) (env : environment)
        (fuel : nat) (file : list byte)
        (filename key key' x_comfy_url comfy_url comfy_url_query
           : option string) (w : world) :
  API_KEY cfg = "" ->
  mask cfg env fuel file filename key x_comfy_url comfy_url
       comfy_url_query w
  = mask cfg env fuel file filename key' x_comfy_url comfy_url
         comfy_url_query w
  /\ health cfg key x_comfy_url comfy_url_query w
     = health cfg key' x_comfy_url comfy_url_query w.
Proof.
  intros E. unfold mask, health.
  split;
    rewrite (bind_step _ _ _ _ _ (require_key_disabled cfg key w E));
    rewrite (bind_step _ _ _ _ _ (require_key_disabled cfg key' w E));
    reflexivity.
Qed.

(** ** The health route *)

(** X3.  [/health] never touches the network or the clock.  When it
    answers, the key check has passed and the [comfy_url] it reports is
    the endpoint that [_pick_comfy_url] selects from the header and the
    query parameter for every request whose form field is blank, which is
    the endpoint [/mask] then uses; the node ids and the workflow path
    are the configured ones. *)
Theorem health_reports_endpoint (cfg : config)
        (x_api_key x_comfy_url comfy_url : option string) (w : world) :
  snd (health cfg x_api_key x_comfy_url comfy_url w) = w
  /\ (forall doc,
         fst (health cfg x_api_key x_comfy_url comfy_url w) = Ok doc ->
         exists base,
           doc = JObj [("ok", JBool true);
                       ("comfy_url", JStr base);
                       ("workflow_json", JStr (WORKFLOW_JSON cfg));
                       ("input_node_id", JStr (INPUT_NODE_ID cfg));
                       ("output_node_id", JStr (OUTPUT_NODE_ID cfg))]
           /\ _require_key cfg x_api_key w = (Ok tt, w)
           /\ (forall form_url,
                  supplied form_url = None ->
                  _pick_comfy_url form_url x_comfy_url comfy_url w
                  = (Ok base, w))).
Proof.
  unfold health, bind.
  destruct (_require_key cfg x_api_key w) as [[[]|e|] w1] eqn:Ek;
    pose proof (require_key_world _ _ _ _ _ Ek) as ->;
    [|split; [reflexivity | discriminate]
     |split; [reflexivity | discriminate]].
  rewrite pick_comfy_url_eq.
  destruct (by_priority None x_comfy_url comfy_url) as [url|] eqn:Ep;
    [|split; [reflexivity | discriminate]].
  split; [reflexivity|].
  intros doc H. injection H as <-.
  exists (PyStr.rstrip_slash url ++ "/"). repeat split.
  intros form_url Hform. rewrite pick_comfy_url_eq.
  unfold by_priority in *. rewrite Hform. simpl in Ep. rewrite Ep.
  reflexivity.
Qed.

(** ** Normalised endpoints *)

Lemma all_chars_app (p : ascii -> bool) (a b : string) :
  all_chars p (a ++ b) = all_chars p a && all_chars p b.
Proof.
  induction a as [|c r IH]; simpl; [reflexivity|].
  rewrite IH. apply andb_assoc.
Qed.

(** X4.  The endpoint [_pick_comfy_url] returns is a fixed point of the
    normalisation: supplied again, in first place, it is selected and
    returned unchanged, whatever the other two sources hold. *)
Theorem picked_endpoint_is_stable
        (form_url header_url query_url other1 other2 : option string)
        (w w' : world) (base : string) :
  _pick_comfy_url form_url header_url query_url w = (Ok base, w') ->
  _pick_comfy_url (Some base) other1 other2 w = (Ok base, w).
Proof.
  rewrite pick_comfy_url_eq.
  destruct (by_priority form_url header_url query_url) as [url|];
    [|discriminate].
  intros H. injection H as <- _.
  rewrite pick_comfy_url_eq. unfold by_priority, supplied.
  rewrite all_chars_app. cbn [all_chars]. rewrite andb_false_r.
  rewrite rstrip_slash_normalized. reflexivity.
Qed.

(** ** Stamped names *)

Lemma uint_no_underscore (d : Decimal.uint) :
  all_chars not_underscore (NilEmpty.string_of_uint d) = true.
Proof. induction d; simpl; auto. Qed.

Lemma of_Z_no_underscore (n : Z) :
  all_chars not_underscore (PyStr.of_Z n) = true.
Proof.
  unfold PyStr.of_Z, NilZero.string_of_int, NilZero.string_of_uint.
  destruct (Z.to_int n) as [d|d]; destruct d; simpl;
    try reflexivity; apply uint_no_underscore.
Qed.

Lemma of_Z_inj (n m : Z) : PyStr.of_Z n = PyStr.of_Z m -> n = m.
Proof.
  unfold PyStr.of_Z. intros H.
  assert (Hnn : forall z, Z.to_int z <> Decimal.Pos Decimal.Nil
                          /\ Z.to_int z <> Decimal.Neg Decimal.Nil).
  { intros [|p|p]; simpl; split; try discriminate;
      intros E; injection E as E; exact (DecimalPos.Unsigned.to_uint_nonnil p E). }
  apply DecimalZ.to_int_inj.
  assert (E : Some (Z.to_int n) = Some (Z.to_int m)).
  { rewrite <- (NilZero.isi (Z.to_int n)) by apply Hnn.
    rewrite <- (NilZero.isi (Z.to_int m)) by apply Hnn.
    rewrite H. reflexivity. }
  injection E as E. exact E.
Qed.

Lemma split_at_underscore (a1 a2 b1 b2 : string) :
  all_chars not_underscore a1 = true ->
  all_chars not_underscore a2 = true ->
  a1 ++ String "_" b1 = a2 ++ String "_" b2 ->
  a1 = a2 /\ b1 = b2.
Proof.
  revert a2. induction a1 as [|c r IH]; intros [|c' r'] H1 H2 E;
    simpl in *.
  - injection E as <-. auto.
  - injection E as <- _. discriminate.
  - injection E as -> _. discriminate.
  - injection E as <- E.
    apply andb_true_iff in H1 as [_ H1].
    apply andb_true_iff in H2 as [_ H2].
    destruct (IH r' H1 H2 E) as [-> ->]. auto.
Qed.

(** X5.  The stamped name determines the clock reading and the original
    name it was built from: two uploads get the same remote name only if
    they carry the same file name and were stamped in the same
    millisecond. *)
Theorem stamp_injective (t1 t2 : Z) (name1 name2 : string) :
  stamp t1 name1 = stamp t2 name2 -> t1 = t2 /\ name1 = name2.
Proof.
  unfold stamp. intros E.
  destruct (split_at_underscore _ _ _ _ (of_Z_no_underscore t1)
              (of_Z_no_underscore t2) E) as [Ht Hn].
  split; [apply of_Z_inj; exact Ht | exact Hn].
Qed.

(** ** Uploads without a budget *)

(** X6.  With a retry budget of zero or less the uploader sends nothing:
    it raises the 502 upload error at once, and the error carries no
    underlying exception. *)
Theorem no_budget_no_upload (cfg : config) (env : environment)
        (img_bytes : list byte) (original_name base_url : string)
        (w : world) :
  MAX_RETRIES cfg <= 0 ->
  _upload_to_comfy cfg env img_bytes original_name base_url w
  = (Raise (HTTPException 502 (UploadFailed None)), w).
Proof.
  intros H. unfold _upload_to_comfy, bind, time.
  replace (Z.to_nat (MAX_RETRIES cfg)) with 0%nat by lia. reflexivity.
Qed.

(** ** Submitting the prompt *)

Lemma queue_prompt_eq (env : environment) (graph : json)
      (base_url : string) (w : world) :
  _queue_prompt env graph base_url w
  = (match serve env (nreq w) (PostPrompt (prompt_url base_url) graph) with
     | Refused msg => Raise (RequestError msg)
     | Answer r =>
         if (400 <=? status_code r) && (status_code r <? 600)
         then Raise (HTTPError (status_code r))
         else match json_body r with
              | None => Raise JSONDecodeError
              | Some (JObj d) =>
                  if PyJson.truthy (get_or_null "prompt_id" d)
                  then match get_or_null "prompt_id" d with
                       | JStr s => Ok s
                       | _ => Raise TypeError
                       end
                  else Raise no_prompt_id
              | Some _ => Raise AttributeError
              end
     end, sent env (PostPrompt (prompt_url base_url) graph) w).
Proof.
  unfold _queue_prompt, bind, send, raise_for_status, response_json, lift,
    sent.
  destruct (serve env (nreq w) (PostPrompt (prompt_url base_url) graph))
    as [msg|r]; [reflexivity|].
  destruct ((400 <=? status_code r) && (status_code r <? 600));
    [reflexivity|]. cbn [ret raise].
  destruct (json_body r) as [[| | | | |d]|]; try reflexivity.
  cbn [py_get ret]. fold (get_or_null "prompt_id" d).
  destruct (PyJson.truthy (get_or_null "prompt_id" d)); cbn [negb];
    [|reflexivity].
  destruct (get_or_null "prompt_id" d); reflexivity.
Qed.

(** X7.  The submitter sends exactly one request and never sleeps or
    retries, whatever the remote does.  A refused connection or a 4xx/5xx
    status is raised as it comes; a JSON object without a truthy
    [prompt_id] (missing, null, empty) gives the 500 "did not return
    prompt_id" error; a non-empty string [prompt_id] is returned. *)
Theorem queue_prompt_submits_once (env : environment) (graph : json)
        (base_url : string) (w : world) :
  let rq := PostPrompt (prompt_url base_url) graph in
  let run := _queue_prompt env graph base_url w in
  snd run = sent env rq w
  /\ fst run <> OutOfFuel
  /\ (forall msg, serve env (nreq w) rq = Refused msg ->
                  fst run = Raise (RequestError msg))
  /\ (forall r, serve env (nreq w) rq = Answer r ->
                (400 <=? status_code r) && (status_code r <? 600) = true ->
                fst run = Raise (HTTPError (status_code r)))
  /\ (forall r d, serve env (nreq w) rq = Answer r ->
                  (400 <=? status_code r) && (status_code r <? 600) = false ->
                  json_body r = Some (JObj d) ->
                  PyJson.truthy (get_or_null "prompt_id" d) = false ->
                  fst run = Raise no_prompt_id)
  /\ (forall r d, serve env (nreq w) rq = Answer r ->
                  (400 <=? status_code r) && (status_code r <? 600) = false ->
                  json_body r = Some (JObj d) ->
                  forall pid, PyJson.lookup "prompt_id" d = Some (JStr pid) ->
                              pid <> "" -> fst run = Ok pid).
Proof.
  cbv zeta. rewrite queue_prompt_eq. cbn [fst snd].
  split; [reflexivity|]. split; [|split; [|split; [|split]]].
  - destruct (serve env (nreq w) _) as [msg|r]; [discriminate|].
    destruct ((400 <=? status_code r) && (status_code r <? 600));
      [discriminate|].
    destruct (json_body r) as [[| | | | |d]|]; try discriminate.
    destruct (PyJson.truthy (get_or_null "prompt_id" d));
      [|discriminate].
    destruct (get_or_null "prompt_id" d); discriminate.
  - intros msg ->. reflexivity.
  - intros r -> ->. reflexivity.
  - intros r d -> -> -> ->. reflexivity.
  - intros r d -> -> -> pid Hl Hne.
    unfold get_or_null. rewrite Hl.
    destruct pid; [congruence | reflexivity].
Qed.

(** ** Documents that do not list the job *)

Lemma poll_once_answer (cfg : config) (env : environment)
      (prompt_id base_url : string) (w : world) (r : response) :
  serve env (nreq w) (GetHistory (history_url base_url prompt_id))
  = Answer r ->
  poll_once cfg env prompt_id base_url w
  = inspect_status cfg prompt_id r
      (sent env (GetHistory (history_url base_url prompt_id)) w).
Proof.
  intros Hs. unfold poll_once, bind, send. rewrite Hs. reflexivity.
Qed.

Lemma first_with_images_none (node : json) (items : dict) (w : world) :
  Forall (fun kv => lacks_images (snd kv)) items ->
  first_with_images node items w = (Ok node, w).
Proof.
  intros H. rewrite <- (app_nil_r items).
  rewrite first_with_images_skip by exact H. reflexivity.
Qed.

(** X8.  A 200 answer that is not a ready document is a not-ready turn,
    not an error: a falsy document (empty object, null), a mapping that
    does not list the job id, a job entry without [outputs], or outputs
    none of whose entries has images while the configured node's entry is
    absent or empty.  In each case the turn is one request and the
    poller goes on to sleep. *)
Theorem poll_not_ready_documents (cfg : config) (env : environment)
        (prompt_id base_url : string) (w : world) (r : response)
        (hist : json) :
  serve env (nreq w) (GetHistory (history_url base_url prompt_id))
  = Answer r ->
  status_code r = 200 ->
  json_body r = Some hist ->
  let not_ready :=
    poll_once cfg env prompt_id base_url w
    = (Ok None, sent env (GetHistory (history_url base_url prompt_id)) w) in
  (PyJson.truthy hist = false -> not_ready)
  /\ (forall docs, hist = JObj docs ->
                   PyJson.lookup prompt_id docs = None -> not_ready)
  /\ (forall docs e, hist = JObj docs ->
                     PyJson.lookup prompt_id docs = Some (JObj e) ->
                     PyJson.lookup "outputs" e = None -> not_ready)
  /\ (forall docs e outs,
         hist = JObj docs ->
         PyJson.lookup prompt_id docs = Some (JObj e) ->
         PyJson.lookup "outputs" e = Some (JObj outs) ->
         PyJson.truthy (get_or_null (OUTPUT_NODE_ID cfg) outs) = false ->
         Forall (fun kv => lacks_images (snd kv)) outs ->
         not_ready).
Proof.
  intros Hs Hst Hb. cbv zeta. rewrite (poll_once_answer _ _ _ _ _ _ Hs).
  set (w1 := sent env _ w).
  assert (Hhead : forall docs e,
             hist = JObj docs ->
             PyJson.lookup prompt_id docs = Some (JObj e) ->
             inspect_status cfg prompt_id r w1
             = (outputs <- py_get (JObj e) "outputs" (JObj []) ;;
                node <- select_node cfg outputs ;;
                ready <- has_images node ;;
                if (ready : bool) then ret (Some hist) else ret None) w1).
  { intros docs e -> Hdoc. unfold inspect_status. rewrite Hst.
    cbn [Z.eqb Pos.eqb].
    unfold bind at 1, response_json. rewrite Hb. cbn [lift ret].
    rewrite (lookup_some_nonempty _ _ _ Hdoc).
    unfold bind at 1. cbn [py_in ret]. unfold PyJson.has_key. rewrite Hdoc.
    unfold bind at 1. rewrite (py_getitem_obj _ _ _ _ Hdoc). reflexivity. }
  split; [|split; [|split]].
  - intros Hf. unfold inspect_status. rewrite Hst. cbn [Z.eqb Pos.eqb].
    unfold bind at 1, response_json. rewrite Hb. cbn [lift ret].
    rewrite Hf. reflexivity.
  - intros docs -> Hl. unfold inspect_status. rewrite Hst.
    cbn [Z.eqb Pos.eqb].
    unfold bind at 1, response_json. rewrite Hb. cbn [lift ret].
    destruct (PyJson.truthy (JObj docs)); [|reflexivity].
    unfold bind at 1. cbn [py_in ret]. unfold PyJson.has_key. rewrite Hl.
    reflexivity.
  - intros docs e Hh Hdoc Hout. rewrite (Hhead docs e Hh Hdoc).
    unfold bind at 1. cbn [py_get ret]. rewrite Hout. reflexivity.
  - intros docs e outs Hh Hdoc Hout Hpref Hall.
    rewrite (Hhead docs e Hh Hdoc).
    unfold bind at 1. cbn [py_get ret]. rewrite Hout.
    unfold bind at 1, select_node. unfold bind at 1. cbn [py_get ret].
    fold (get_or_null (OUTPUT_NODE_ID cfg) outs). rewrite Hpref.
    cbn [negb]. unfold bind at 1. cbn [py_items ret].
    rewrite (first_with_images_none _ _ _ Hall).
    unfold bind at 1, has_images. rewrite Hpref. reflexivity.
Qed.

(** X9.  The fetcher reads the same document with subscripts: when the
    status document does not list the job id, or the job entry has no
    [outputs] field, it raises [KeyError] before any request, where the
    poller would have waited. *)
Theorem fetch_missing_entry_is_key_error (cfg : config) (env : environment)
        (docs : dict) (prompt_id base_url : string) (w : world) :
  (PyJson.lookup prompt_id docs = None ->
   _fetch_first_image cfg env (JObj docs) prompt_id base_url w
   = (Raise KeyError, w))
  /\ (forall e, PyJson.lookup prompt_id docs = Some (JObj e) ->
                PyJson.lookup "outputs" e = None ->
                _fetch_first_image cfg env (JObj docs) prompt_id base_url w
                = (Raise KeyError, w)).
Proof.
  split.
  - intros Hl. unfold _fetch_first_image, bind at 1.
    cbn [py_getitem]. rewrite Hl. reflexivity.
  - intros e Hl Ho. unfold _fetch_first_image.
    unfold bind at 1. rewrite (py_getitem_obj _ _ _ _ Hl).
    unfold bind at 1. cbn [py_getitem]. rewrite Ho. reflexivity.
Qed.

(** ** Failures and deadlines of the poller *)

(** X10.  Unlike the uploader, the poller does not survive a failed
    request: with a positive timeout ([inf] included), a refused connection on the first
    status request, or a 200 answer whose body is not JSON, ends the poll
    with that exception after this one request, without sleep or
    retry. *)
Theorem poll_failure_is_fatal (cfg : config) (env : environment)
        (fuel : nat) (prompt_id base_url : string) (w : world) :
  positive_timeout (POLL_TIMEOUT_MS cfg) ->
  let rq := GetHistory (history_url base_url prompt_id) in
  (forall msg, serve env (nreq w) rq = Refused msg ->
               _poll_history cfg env (S fuel) prompt_id base_url w
               = (Raise (RequestError msg), sent env rq w))
  /\ (forall r, serve env (nreq w) rq = Answer r ->
                status_code r = 200 ->
                json_body r = None ->
                _poll_history cfg env (S fuel) prompt_id base_url w
                = (Raise JSONDecodeError, sent env rq w)).
Proof.
  intros Ht. cbv zeta.
  pose proof (before_after_positive (now w) _ Ht) as Hin.
  split.
  - intros msg Hs. unfold _poll_history, bind at 1, time.
    rewrite poll_loop_S, Hin. unfold poll_once, bind, send.
    rewrite Hs. reflexivity.
  - intros r Hs Hst Hb. unfold _poll_history, bind at 1, time.
    rewrite poll_loop_S, Hin, (poll_once_answer _ _ _ _ _ _ Hs).
    unfold inspect_status. rewrite Hst. cbn [Z.eqb Pos.eqb].
    unfold bind at 1, response_json. rewrite Hb. reflexivity.
Qed.

(** X11.  With a timeout of zero or less ([-inf] and [nan] included, for
    which the loop test is false as well) the poller never asks: it
    raises the 504 timeout at once and leaves the world untouched. *)
Theorem no_timeout_no_poll (cfg : config) (env : environment) (fuel : nat)
        (prompt_id base_url : string) (w : world) :
  elapsed_timeout (POLL_TIMEOUT_MS cfg) ->
  _poll_history cfg env (S fuel) prompt_id base_url w
  = (Raise timed_out, w).
Proof.
  intros Ht. unfold _poll_history, bind at 1, time. rewrite poll_loop_S.
  rewrite (before_after_elapsed _ _ Ht).
  reflexivity.
Qed.

(** ** Binding again, and nodes that do not count *)

Lemma store_nonempty (k : string) (v : json) (d : dict) :
  PyJson.store k v d <> [].
Proof.
  destruct d as [|[k' v'] r]; simpl; [discriminate|].
  destruct (String.eqb k k'); discriminate.
Qed.

Lemma store_store (k : string) (v1 v2 : json) (d : dict) :
  PyJson.store k v2 (PyJson.store k v1 d) = PyJson.store k v2 d.
Proof.
  induction d as [|[k' v'] r IH]; simpl.
  - rewrite String.eqb_refl. reflexivity.
  - destruct (String.eqb k k') eqn:E; simpl.
    + rewrite String.eqb_refl. reflexivity.
    + rewrite E, IH. reflexivity.
Qed.

Lemma bind_input_eq (cfg : config) (nodes fields : dict) (name : string)
      (w : world) :
  PyJson.lookup (INPUT_NODE_ID cfg) nodes = Some (JObj fields) ->
  fields <> [] ->
  (PyJson.lookup "inputs" fields = None
   \/ exists ins, PyJson.lookup "inputs" fields = Some (JObj ins)) ->
  bind_input cfg (JObj nodes) name w
  = (Ok (bound (INPUT_NODE_ID cfg) name nodes fields), w).
Proof.
  intros Hnode Hne Hins.
  assert (Ht : PyJson.truthy (JObj fields) = true)
    by (destruct fields; [congruence | reflexivity]).
  unfold bind_input, bind.
  rewrite (find_input_node_present cfg _ _ Hnode Ht w), Ht. cbn [negb].
  unfold set_image, bound, inputs_of.
  destruct Hins as [-> | (ins & ->)]; reflexivity.
Qed.

Lemma bind_input_ok_inv (cfg : config) (g g' : json) (name : string)
      (w w' : world) :
  bind_input cfg g name w = (Ok g', w') ->
  w' = w
  /\ exists nodes fields,
      g = JObj nodes
      /\ PyJson.lookup (INPUT_NODE_ID cfg) nodes = Some (JObj fields)
      /\ fields <> []
      /\ (PyJson.lookup "inputs" fields = None
          \/ exists ins, PyJson.lookup "inputs" fields = Some (JObj ins))
      /\ g' = bound (INPUT_NODE_ID cfg) name nodes fields.
Proof.
  destruct g as [| | | | |nodes]; try discriminate.
  unfold bind_input, bind.
  destruct (PyJson.lookup (INPUT_NODE_ID cfg) nodes) as [v|] eqn:El;
    [destruct (PyJson.truthy v) eqn:Et|].
  - rewrite (find_input_node_present cfg _ _ El Et w), Et. cbn [negb].
    destruct v as [| | | | |fields]; try discriminate.
    unfold set_image.
    assert (Hne : fields <> [])
      by (destruct fields; [discriminate Et | discriminate]).
    destruct (PyJson.lookup "inputs" fields) as [[| | | | |ins]|] eqn:Ei;
      try discriminate; cbn [ret]; intros H; injection H as <- <-;
      (split; [reflexivity|]); exists nodes, fields;
      (split; [reflexivity|]); (split; [exact El|]);
      (split; [exact Hne|]);
      (split; [eauto | unfold bound, inputs_of; rewrite Ei; reflexivity]).
  - rewrite find_input_node_falsy by (rewrite El; exact Et).
    destruct (PyStr.to_int (INPUT_NODE_ID cfg)); discriminate.
  - rewrite find_input_node_falsy by (rewrite El; reflexivity).
    destruct (PyStr.to_int (INPUT_NODE_ID cfg)); discriminate.
Qed.

(** X12.  Binding overwrites: a graph that already went through the
    binder with one asset name and is bound again with another comes out
    exactly as the original graph bound with the second name.  Nothing of
    the first binding is left, and nothing accumulates when a template is
    reused. *)
Theorem rebinding_overwrites (cfg : config) (g g1 : json)
        (first second : string) (w w1 w2 : world) :
  bind_input cfg g first w = (Ok g1, w1) ->
  bind_input cfg g1 second w2 = bind_input cfg g second w2.
Proof.
  intros H.
  destruct (bind_input_ok_inv _ _ _ _ _ _ H)
    as (_ & nodes & fields & -> & Hnode & Hne & Hins & ->).
  rewrite (bind_input_eq cfg nodes fields second w2 Hnode Hne Hins).
  unfold bound at 1.
  rewrite (bind_input_eq cfg _ _ second w2
             (lookup_store_same _ _ _) (store_nonempty _ _ _)
             (or_intror (ex_intro _ _ (lookup_store_same _ _ _)))).
  unfold bound, inputs_of. rewrite lookup_store_same.
  repeat rewrite store_store. reflexivity.
Qed.

(** X13.  A node that is present under the input node id but falsy (an
    empty mapping, null, an empty list or string, zero, false) counts as
    absent: with an id that reads as an integer the binder raises the
    "input node not found" error although the key exists. *)
Theorem falsy_node_counts_as_missing (cfg : config) (nodes : dict)
        (node : json) (name : string) (w : world) :
  PyJson.lookup (INPUT_NODE_ID cfg) nodes = Some node ->
  PyJson.truthy node = false ->
  PyStr.to_int (INPUT_NODE_ID cfg) <> None ->
  bind_input cfg (JObj nodes) name w
  = (Raise (HTTPException 500 (InputNodeNotFound (INPUT_NODE_ID cfg))), w).
Proof.
  intros Hl Hf Hint. unfold bind_input, bind.
  rewrite find_input_node_falsy by (rewrite Hl; exact Hf).
  destruct (PyStr.to_int (INPUT_NODE_ID cfg)); [reflexivity | congruence].
Qed.

(** ** What a successful poll guarantees *)

Lemma stateless_run {A} (m : M A) (w w' : world) (r : outcome A) :
  stateless m -> m w = (r, w') -> w' = w /\ forall w0, m w0 = (r, w0).
Proof.
  intros (r0 & _ & Hall) H. rewrite Hall in H. injection H as <- <-.
  split; [reflexivity | exact Hall].
Qed.

Lemma stateless_py_first (v : json) : stateless (py_first v).
Proof.
  destruct v as [| | |s|l|f]; simpl; try apply stateless_raise.
  - destruct s; [apply stateless_raise | apply stateless_ret].
  - destruct l; [apply stateless_raise | apply stateless_ret].
Qed.

Lemma inspect_status_ready (cfg : config) (prompt_id : string)
      (r : response) (w w' : world) (hist : json) :
  inspect_status cfg prompt_id r w = (Ok (Some hist), w') ->
  status_code r = 200
  /\ json_body r = Some hist
  /\ exists docs e outputs node,
      hist = JObj docs
      /\ PyJson.lookup prompt_id docs = Some (JObj e)
      /\ PyJson.lookup "outputs" e = Some outputs
      /\ (forall w0, select_node cfg outputs w0 = (Ok node, w0))
      /\ (forall w0, has_images node w0 = (Ok true, w0)).
Proof.
  unfold inspect_status.
  destruct (status_code r =? 200) eqn:Est; [|discriminate].
  apply Z.eqb_eq in Est. intros H.
  apply bind_ok in H. destruct H as (hist0 & w1 & Hjson & H).
  unfold response_json, lift in Hjson.
  destruct (json_body r) as [b|] eqn:Eb; [|discriminate].
  injection Hjson as -> ->.
  apply bind_ok in H. destruct H as (present & w2 & Hin & H).
  destruct present; [|discriminate].
  apply bind_ok in H. destruct H as (entry & w3 & Hentry & H).
  destruct hist0 as [| | | | |docs]; try discriminate.
  cbn [py_getitem] in Hentry. unfold lift in Hentry.
  destruct (PyJson.lookup prompt_id docs) as [entry0|] eqn:Edoc;
    [|discriminate].
  injection Hentry as -> ->.
  apply bind_ok in H. destruct H as (outputs & w4 & Hout & H).
  destruct entry as [| | | | |e]; try discriminate.
  cbn [py_get ret] in Hout. injection Hout as <- <-.
  apply bind_ok in H. destruct H as (node & w5 & Hsel & H).
  apply (stateless_run _ _ _ _ (stateless_select_node cfg _)) in Hsel.
  destruct Hsel as (-> & Hsel).
  apply bind_ok in H. destruct H as (ready & w6 & Hready & H).
  apply (stateless_run _ _ _ _ (stateless_has_images _)) in Hready.
  destruct Hready as (-> & Hready).
  destruct ready; [|discriminate].
  injection H as <- _.
  split; [exact Est|]. split; [reflexivity|].
  destruct (PyJson.lookup "outputs" e) as [outs|] eqn:Eo.
  - exists docs, e, outs, node. auto.
  - exfalso. specialize (Hsel start). specialize (Hready start).
    unfold select_node, bind in Hsel. cbn in Hsel.
    injection Hsel as <-. discriminate Hready.
Qed.

Lemma poll_loop_ok_inv (cfg : config) (env : environment)
      (prompt_id base_url : string) (deadline : span) :
  forall (fuel : nat) (w w' : world) (hist : json),
    poll_loop cfg env fuel prompt_id base_url deadline w = (Ok hist, w') ->
    exists w0 r,
      serve env (nreq w0) (GetHistory (history_url base_url prompt_id))
      = Answer r
      /\ w' = sent env (GetHistory (history_url base_url prompt_id)) w0
      /\ inspect_status cfg prompt_id r w' = (Ok (Some hist), w').
Proof.
  induction fuel as [|k IH]; intros w w' hist H; [discriminate|].
  rewrite poll_loop_S in H.
  destruct (before (now w) deadline); [|discriminate].
  destruct (poll_once cfg env prompt_id base_url w)
    as [[[h|]|e|] w1] eqn:Eonce; try discriminate.
  - injection H as -> ->.
    unfold poll_once, bind, send in Eonce.
    destruct (serve env (nreq w) _) as [msg|r] eqn:Es; [discriminate|].
    fold (sent env (GetHistory (history_url base_url prompt_id)) w)
      in Eonce.
    pose proof (stateless_run _ _ _ _
                  (stateless_inspect_status cfg prompt_id r) Eonce)
      as (-> & Hall).
    exists w, r. repeat split; [exact Es | apply Hall].
  - unfold bind in H.
    destruct (sleep (POLL_INTERVAL_MS cfg) w1) as [[u|e|] w2];
      try discriminate.
    exact (IH _ _ _ H).
Qed.

(** X14.  The document a successful poll returns is the body, as
    decoded, of a 200 answer to the last status request the poller sent;
    it is a mapping that lists the job id, and the job entry has an
    [outputs] field. *)
Theorem poll_returns_served_document (cfg : config) (env : environment)
        (fuel : nat) (prompt_id base_url : string) (w w' : world)
        (hist : json) :
  _poll_history cfg env fuel prompt_id base_url w = (Ok hist, w') ->
  exists w0 r docs e outputs,
    w' = sent env (GetHistory (history_url base_url prompt_id)) w0
    /\ serve env (nreq w0) (GetHistory (history_url base_url prompt_id))
       = Answer r
    /\ status_code r = 200
    /\ json_body r = Some hist
    /\ hist = JObj docs
    /\ PyJson.lookup prompt_id docs = Some (JObj e)
    /\ PyJson.lookup "outputs" e = Some outputs.
Proof.
  unfold _poll_history, bind, time. intros H.
  destruct (poll_loop_ok_inv _ _ _ _ _ _ _ _ _ H) as (w0 & r & Hs & Hw & Hi).
  destruct (inspect_status_ready _ _ _ _ _ _ Hi)
    as (Hst & Hb & docs & e & outputs & node & Hh & Hd & Ho & _).
  exists w0, r, docs, e, outputs. auto 10.
Qed.

Lemma no_http_ret {A} (a : A) : no_http (ret a).
Proof. intros w e w' H. discriminate H. Qed.

Lemma no_http_raise {A} (e : exn) : is_http e = false -> no_http (@raise A e).
Proof. intros He w e' w' H. injection H as <- _. exact He. Qed.

Lemma no_http_bind {A B} (m : M A) (k : A -> M B) :
  no_http m -> (forall a, no_http (k a)) -> no_http (bind m k).
Proof.
  intros Hm Hk w e w' H. unfold bind in H.
  destruct (m w) as [[a|e0|] w1] eqn:Em.
  - exact (Hk a _ _ _ H).
  - injection H as <- _. exact (Hm _ _ _ Em).
  - discriminate.
Qed.

Lemma no_http_py_getitem (v : json) (k : string) : no_http (py_getitem v k).
Proof.
  destruct v; simpl; try (apply no_http_raise; reflexivity).
  unfold lift. destruct (PyJson.lookup k fields);
    [apply no_http_ret | apply no_http_raise; reflexivity].
Qed.

Lemma no_http_py_get (v : json) (k : string) (d : json) :
  no_http (py_get v k d).
Proof.
  destruct v; simpl;
    first [apply no_http_ret | apply no_http_raise; reflexivity].
Qed.

Lemma no_http_py_first (v : json) : no_http (py_first v).
Proof.
  destruct v as [| | |s|l|f]; simpl;
    try (apply no_http_raise; reflexivity).
  - destruct s; [apply no_http_raise; reflexivity | apply no_http_ret].
  - destruct l; [apply no_http_raise; reflexivity | apply no_http_ret].
Qed.

Lemma no_http_send (env : environment) (rq : request) :
  no_http (send env rq).
Proof.
  intros w e w' H. unfold send in H.
  destruct (serve env (nreq w) rq); [|discriminate].
  injection H as <- _. reflexivity.
Qed.

Lemma no_http_raise_for_status (r : response) :
  no_http (raise_for_status r).
Proof.
  unfold raise_for_status.
  destruct ((400 <=? status_code r) && (status_code r <? 600));
    [apply no_http_raise; reflexivity | apply no_http_ret].
Qed.

(** X15.  The poller and the fetcher agree.  The document a successful
    poll returned is a mapping that lists the job; the job entry is a
    mapping with an [outputs] field; on these outputs the node selection
    succeeds, and the selected node is a mapping whose [images] field is
    truthy.  On that document the fetcher's own two lookups, selection
    and test therefore succeed, and the fetcher goes on to read the first
    descriptor of these very images and to download it; so the 500 "No
    output images found" error cannot occur, no [HTTPException] at all is
    raised by the fetcher, and neither of its two lookups raises: what
    can still fail is the descriptor (a [KeyError], [IndexError] or
    [TypeError]) or the download itself. *)
Theorem fetch_after_poll_finds_images (cfg : config) (env : environment)
        (fuel : nat) (prompt_id base_url : string) (w w' : world)
        (hist : json) :
  _poll_history cfg env fuel prompt_id base_url w = (Ok hist, w') ->
  exists (docs e : dict) (outputs node : json) (fields : dict)
         (images : json),
    hist = JObj docs
    /\ PyJson.lookup prompt_id docs = Some (JObj e)
    /\ PyJson.lookup "outputs" e = Some outputs
    /\ (forall w0, select_node cfg outputs w0 = (Ok node, w0))
    /\ node = JObj fields
    /\ PyJson.lookup "images" fields = Some images
    /\ PyJson.truthy images = true
    /\ (forall w0, has_images node w0 = (Ok true, w0))
    /\ (forall w0,
          py_getitem hist prompt_id w0 = (Ok (JObj e), w0)
          /\ py_getitem (JObj e) "outputs" w0 = (Ok outputs, w0)
          /\ py_getitem node "images" w0 = (Ok images, w0))
    /\ (forall w0,
          _fetch_first_image cfg env hist prompt_id base_url w0
          = (info <- py_first images ;;
             filename <- py_getitem info "filename" ;;
             subfolder <- py_get info "subfolder" (JStr "") ;;
             type <- py_get info "type" (JStr "output") ;;
             r <- send env (GetView (view_url base_url)
                              [("filename", filename);
                               ("subfolder", subfolder);
                               ("type", type)]) ;;
             raise_for_status r ;;
             ret (content r)) w0)
    /\ (forall w0 ex w1,
          _fetch_first_image cfg env hist prompt_id base_url w0
          = (Raise ex, w1) ->
          is_http ex = false /\ ex <> no_images).
Proof.
  unfold _poll_history, bind at 1, time. intros H.
  destruct (poll_loop_ok_inv _ _ _ _ _ _ _ _ _ H) as (w0 & r & _ & _ & Hi).
  destruct (inspect_status_ready _ _ _ _ _ _ Hi)
    as (_ & _ & docs & e & outputs & node & -> & Hd & Ho & Hsel & Himg).
  assert (Hnode : exists fields images,
             node = JObj fields
             /\ PyJson.lookup "images" fields = Some images
             /\ PyJson.truthy images = true).
  { pose proof (Himg start) as Hs.
    destruct node as [|b|z|t|l|fields];
      try (unfold has_images in Hs;
           destruct (PyJson.truthy _); discriminate Hs).
    rewrite has_images_obj in Hs. injection Hs as Hs.
    apply andb_true_iff in Hs. destruct Hs as [_ Hs].
    unfold images_of, get_or_null in Hs.
    destruct (PyJson.lookup "images" fields) as [images|] eqn:El;
      [|discriminate].
    exists fields, images. auto. }
  destruct Hnode as (fields & images & -> & Hl & Ht).
  assert (Heq : forall w2,
             _fetch_first_image cfg env (JObj docs) prompt_id base_url w2
             = (info <- py_first images ;;
                filename <- py_getitem info "filename" ;;
                subfolder <- py_get info "subfolder" (JStr "") ;;
                type <- py_get info "type" (JStr "output") ;;
                r <- send env (GetView (view_url base_url)
                                 [("filename", filename);
                                  ("subfolder", subfolder);
                                  ("type", type)]) ;;
                raise_for_status r ;;
                ret (content r)) w2).
  { intros w2. unfold _fetch_first_image.
    unfold bind at 1. rewrite (py_getitem_obj _ _ _ _ Hd).
    unfold bind at 1. rewrite (py_getitem_obj _ _ _ _ Ho).
    unfold bind at 1. rewrite Hsel.
    unfold bind at 1. rewrite Himg. cbn [negb].
    unfold bind at 1. rewrite (py_getitem_obj _ _ _ _ Hl).
    reflexivity. }
  exists docs, e, outputs, (JObj fields), fields, images.
  split; [reflexivity|]. split; [exact Hd|]. split; [exact Ho|].
  split; [exact Hsel|]. split; [reflexivity|]. split; [exact Hl|].
  split; [exact Ht|]. split; [exact Himg|].
  split.
  { intros w2. split; [apply py_getitem_obj; exact Hd|].
    split; apply py_getitem_obj; assumption. }
  split; [exact Heq|].
  intros w2 ex w3 Hf.
  assert (Hno : is_http ex = false).
  { rewrite Heq in Hf. revert Hf. generalize w2 ex w3.
    change (no_http
              (info <- py_first images ;;
               filename <- py_getitem info "filename" ;;
               subfolder <- py_get info "subfolder" (JStr "") ;;
               type <- py_get info "type" (JStr "output") ;;
               r <- send env (GetView (view_url base_url)
                                [("filename", filename);
                                 ("subfolder", subfolder);
                                 ("type", type)]) ;;
               raise_for_status r ;;
               ret (content r))).
    apply no_http_bind; [apply no_http_py_first|]. intros info.
    apply no_http_bind; [apply no_http_py_getitem|]. intros filename.
    apply no_http_bind; [apply no_http_py_get|]. intros subfolder.
    apply no_http_bind; [apply no_http_py_get|]. intros type.
    apply no_http_bind; [apply no_http_send|]. intros r0.
    apply no_http_bind; [apply no_http_raise_for_status|]. intros _.
    apply no_http_ret. }
  split; [exact Hno|]. intros ->. discriminate Hno.
Qed.

(** ** The order of the network calls *)

Lemma bind_snd {A B} (m : M A) (k : A -> M B) (w : world) :
  snd (bind m k w)
  = match m w with
    | (Ok a, w1) => snd (k a w1)
    | (_, w1) => w1
    end.
Proof. unfold bind. destruct (m w) as [[a|e|] w1]; reflexivity. Qed.

Lemma cycles_phase (n : nat) (rq : request) (ms : Z) :
  Forall (fun e => e = EReq rq \/ e = ESleep ms) (cycles n rq ms).
Proof.
  induction n as [|k IH]; simpl; [constructor|].
  constructor; [left; reflexivity|].
  constructor; [right; reflexivity | exact IH].
Qed.

Lemma stateless_find_input_node (cfg : config) (graph : json) :
  stateless (find_input_node cfg graph).
Proof.
  unfold find_input_node.
  apply stateless_bind; [apply stateless_py_get|]. intros by_name.
  apply stateless_if; [apply stateless_ret|].
  destruct (PyStr.to_int (INPUT_NODE_ID cfg));
    [apply stateless_ret | apply stateless_raise].
Qed.

Lemma stateless_set_image (node : json) (name : string) :
  stateless (set_image node name).
Proof.
  unfold set_image. destruct node; try apply stateless_raise.
  destruct (PyJson.lookup "inputs" fields) as [[| | | | |ins]|];
    first [apply stateless_ret | apply stateless_raise].
Qed.

Lemma stateless_bind_input (cfg : config) (graph : json) (name : string) :
  stateless (bind_input cfg graph name).
Proof.
  unfold bind_input.
  apply stateless_bind; [apply stateless_find_input_node|]. intros node.
  apply stateless_if; [apply stateless_raise|].
  apply stateless_bind; [apply stateless_set_image|]. intros node'.
  destruct graph; first [apply stateless_ret | apply stateless_raise].
Qed.

Lemma stateless_load_workflow (cfg : config) (env : environment) :
  stateless (load_workflow cfg env).
Proof.
  unfold load_workflow.
  destruct (read_json_file env (WORKFLOW_JSON cfg));
    [apply stateless_raise | apply stateless_ret].
Qed.

Lemma phase_one (rq : request) (ms : Z) :
  Forall (fun e => e = EReq rq \/ e = ESleep ms) [EReq rq].
Proof. constructor; [left; reflexivity | constructor]. Qed.

(** Whatever its outcome and its fuel, the poll loop adds only status
    requests and sleeps of the interval to the trace. *)
Lemma poll_loop_trace (cfg : config) (env : environment)
      (prompt_id base_url : string) (deadline : span) :
  forall (fuel : nat) (w : world),
  exists polls,
    trace (snd (poll_loop cfg env fuel prompt_id base_url deadline w))
    = (trace w ++ polls)%list
    /\ poll_phase (GetHistory (history_url base_url prompt_id))
                  (POLL_INTERVAL_MS cfg) polls.
Proof.
  induction fuel as [|k IH]; intros w.
  - exists []. simpl. rewrite app_nil_r. split; [reflexivity | constructor].
  - rewrite poll_loop_S.
    destruct (before (now w) deadline);
      [|exists []; simpl; rewrite app_nil_r;
        split; [reflexivity | constructor]].
    destruct (poll_once_eq cfg env prompt_id base_url w)
      as (r1 & _ & Hrun & _).
    rewrite Hrun.
    destruct r1 as [[h|]|e|];
      try (exists [EReq (GetHistory (history_url base_url prompt_id))];
           split; [reflexivity | apply phase_one]).
    unfold bind, sleep.
    destruct (POLL_INTERVAL_MS cfg <? 0).
    + exists [EReq (GetHistory (history_url base_url prompt_id))].
      split; [reflexivity | apply phase_one].
    + match goal with
      | |- context [poll_loop _ _ _ _ _ _ ?w2] =>
          destruct (IH w2) as (polls & Htr & Hph)
      end.
      exists (EReq (GetHistory (history_url base_url prompt_id))
                :: ESleep (POLL_INTERVAL_MS cfg) :: polls).
      split.
      * rewrite Htr. simpl. repeat rewrite <- app_assoc. reflexivity.
      * constructor; [left; reflexivity|].
        constructor; [right; reflexivity | exact Hph].
Qed.

Lemma poll_history_trace (cfg : config) (env : environment) (fuel : nat)
      (prompt_id base_url : string) (w : world) :
  exists polls,
    trace (snd (_poll_history cfg env fuel prompt_id base_url w))
    = (trace w ++ polls)%list
    /\ poll_phase (GetHistory (history_url base_url prompt_id))
                  (POLL_INTERVAL_MS cfg) polls.
Proof.
  unfold _poll_history, bind, time. apply poll_loop_trace.
Qed.

Lemma bind_stateless_snd {A B} (m : M A) (k : A -> M B)
      (P : world -> Prop) (w : world) :
  stateless m -> P w -> (forall a, P (snd (k a w))) -> P (snd (bind m k w)).
Proof.
  intros (r & Hr & Hall) Hw Hk. rewrite bind_snd, Hall.
  destruct r as [a|e|]; [apply Hk | exact Hw | exact Hw].
Qed.

(** The fetcher sends at most one request, to the view route. *)
Lemma fetch_trace (cfg : config) (env : environment) (history : json)
      (prompt_id base_url : string) (w : world) :
  exists view,
    trace (snd (_fetch_first_image cfg env history prompt_id base_url w))
    = (trace w ++ view)%list
    /\ view_phase (view_url base_url) view.
Proof.
  set (P := fun w' : world =>
              exists view, trace w' = (trace w ++ view)%list
                           /\ view_phase (view_url base_url) view).
  assert (P0 : P w).
  { exists []. rewrite app_nil_r. split; [reflexivity | left; reflexivity]. }
  change (P (snd (_fetch_first_image cfg env history prompt_id base_url w))).
  unfold _fetch_first_image.
  apply bind_stateless_snd; [apply stateless_py_getitem | exact P0|].
  intros entry.
  apply bind_stateless_snd; [apply stateless_py_getitem | exact P0|].
  intros outputs.
  apply bind_stateless_snd; [apply stateless_select_node | exact P0|].
  intros node.
  apply bind_stateless_snd; [apply stateless_has_images | exact P0|].
  intros found. destruct (negb found); [exact P0|].
  apply bind_stateless_snd; [apply stateless_py_getitem | exact P0|].
  intros images.
  apply bind_stateless_snd; [apply stateless_py_first | exact P0|].
  intros info.
  apply bind_stateless_snd; [apply stateless_py_getitem | exact P0|].
  intros filename.
  apply bind_stateless_snd; [apply stateless_py_get | exact P0|].
  intros subfolder.
  apply bind_stateless_snd; [apply stateless_py_get | exact P0|].
  intros type.
  exists [EReq (GetView (view_url base_url)
                  [("filename", filename); ("subfolder", subfolder);
                   ("type", type)])].
  split; [|right; eexists; reflexivity].
  unfold bind, send, raise_for_status.
  destruct (serve env (nreq w) _) as [msg|r]; [reflexivity|].
  destruct ((400 <=? status_code r) && (status_code r <? 600));
    reflexivity.
Qed.

Lemma upload_outcome (cfg : config) (env : environment) (file : list byte)
      (name base : string) (w : world) :
  let rq := PostUpload (upload_url base) (stamp (now w) name) file in
  exists w1,
    (exists n, (n < Z.to_nat (MAX_RETRIES cfg))%nat
               /\ _upload_to_comfy cfg env file name base w
                  = (Ok (stamp (now w) name), w1)
               /\ trace w1 = (trace w ++ cycles n rq 2000 ++ [EReq rq])%list)
    \/ (exists e,
           _upload_to_comfy cfg env file name base w
           = (Raise (HTTPException 502 (UploadFailed e)), w1)
           /\ trace w1 = (trace w ++ cycles (Z.to_nat (MAX_RETRIES cfg))
                                          rq 2000)%list).
Proof.
  cbv zeta. unfold _upload_to_comfy, bind, time.
  apply upload_loop_outcome.
Qed.

Lemma upload_phase_cycles (n : nat) (rq : request) :
  upload_phase rq (cycles n rq 2000).
Proof. apply cycles_phase. Qed.

Lemma upload_phase_success (n : nat) (rq : request) :
  upload_phase rq (cycles n rq 2000 ++ [EReq rq]).
Proof.
  apply Forall_app. split; [apply cycles_phase | apply phase_one].
Qed.

(** X16.  The network calls of a [/mask] request come in a fixed order,
    whatever the remote answers and however the request ends.  Either the
    request is rejected before anything happens (key or endpoint), or its
    trace is: the upload posts, all of the same stamped file to the
    upload route of the chosen endpoint, with their 2 s backoffs; then
    nothing, or one prompt post followed by status requests for one job
    id with sleeps of the polling interval, followed by at most one
    download from the view route.  No prompt is sent before the uploads,
    no status request before the prompt, nothing after the download. *)
Theorem mask_protocol_order (cfg : config) (env : environment) (fuel : nat)
        (file : list byte)
        (filename x_api_key x_comfy_url comfy_url comfy_url_query
           : option string) (w : world) :
  let w' := snd (mask cfg env fuel file filename x_api_key x_comfy_url
                      comfy_url comfy_url_query w) in
  w' = w
  \/ exists base uploads rest,
      _pick_comfy_url comfy_url x_comfy_url comfy_url_query w = (Ok base, w)
      /\ trace w' = (trace w ++ uploads ++ rest)%list
      /\ upload_phase (PostUpload (upload_url base)
                                  (stamp (now w) (name_of_upload filename))
                                  file) uploads
      /\ after_upload base (POLL_INTERVAL_MS cfg) rest.
Proof.
  cbv zeta. unfold mask. rewrite bind_snd.
  destruct (_require_key cfg x_api_key w) as [[[]|e|] w0] eqn:Ek;
    pose proof (require_key_world _ _ _ _ _ Ek) as ->;
    [|left; reflexivity|left; reflexivity].
  rewrite bind_snd.
  destruct (_pick_comfy_url comfy_url x_comfy_url comfy_url_query w)
    as [[base|e|] w0] eqn:Epick;
    pose proof Epick as Epick'; rewrite pick_comfy_url_eq in Epick';
    injection Epick' as _ <-;
    [|left; reflexivity|left; reflexivity].
  right. exists base. rewrite bind_snd.
  set (name := name_of_upload filename).
  set (up := PostUpload (upload_url base) (stamp (now w) name) file).
  destruct (upload_outcome cfg env file name base w)
    as (w1 & [(n & _ & Hup & Htr1) | (e & Hup & Htr1)]);
    rewrite Hup.
  2:{ exists (cycles (Z.to_nat (MAX_RETRIES cfg)) up 2000), [].
      rewrite app_nil_r.
      repeat split; [exact Htr1 | apply upload_phase_cycles | left; auto]. }
  assert (Hstop : exists uploads rest,
             (Ok base, w) = (Ok base, w)
             /\ trace w1 = (trace w ++ uploads ++ rest)%list
             /\ upload_phase up uploads
             /\ after_upload base (POLL_INTERVAL_MS cfg) rest).
  { exists (cycles n up 2000 ++ [EReq up])%list, []. rewrite app_nil_r.
    repeat split;
      [exact Htr1 | apply upload_phase_success | left; auto]. }
  rewrite bind_snd.
  destruct (stateless_load_workflow cfg env) as (rg & _ & Hg).
  rewrite Hg. destruct rg as [graph|e|]; try exact Hstop.
  rewrite bind_snd.
  destruct (stateless_bind_input cfg graph (stamp (now w) name))
    as (rb & _ & Hb).
  rewrite Hb. destruct rb as [graph'|e|]; try exact Hstop.
  clear Hstop. rewrite bind_snd.
  destruct (_queue_prompt env graph' base w1) as [[pid|e|] w2] eqn:Eq;
    pose proof (f_equal snd Eq) as Hw2;
    rewrite queue_prompt_eq in Hw2; cbn [snd] in Hw2; subst w2.
  2,3: exists (cycles n up 2000 ++ [EReq up])%list, [EReq (PostPrompt (prompt_url base) graph')];
       (repeat split;
        [simpl; rewrite Htr1; repeat rewrite <- app_assoc; reflexivity
        |apply upload_phase_success
        |right; exists graph', "", [], [];
         repeat split; [constructor | left; reflexivity]]).
  rewrite bind_snd.
  destruct (poll_history_trace cfg env fuel pid base (sent env (PostPrompt (prompt_url base) graph') w1))
    as (polls & Htr3 & Hpolls).
  destruct (_poll_history cfg env fuel pid base (sent env (PostPrompt (prompt_url base) graph') w1))
    as [[hist|e|] w3] eqn:Epoll; cbn [snd] in Htr3; cbv beta iota.
  2,3: exists (cycles n up 2000 ++ [EReq up])%list,
              (EReq (PostPrompt (prompt_url base) graph') :: polls ++ [])%list;
       (repeat split;
        [rewrite Htr3; simpl; rewrite Htr1, app_nil_r;
         repeat rewrite <- app_assoc; reflexivity
        |apply upload_phase_success
        |right; exists graph', pid, polls, [];
         repeat split; [exact Hpolls | left; reflexivity]]).
  rewrite bind_snd.
  destruct (fetch_trace cfg env hist pid base w3) as (view & Htr4 & Hview).
  destruct (_fetch_first_image cfg env hist pid base w3)
    as [[out|e|] w4] eqn:Ef; cbn [snd ret] in *; cbv beta iota;
    exists (cycles n up 2000 ++ [EReq up])%list,
           (EReq (PostPrompt (prompt_url base) graph') :: polls ++ view)%list;
    (repeat split;
     [rewrite Htr4, Htr3; simpl; rewrite Htr1;
      repeat rewrite <- app_assoc; reflexivity
     |apply upload_phase_success
     |right; exists graph', pid, polls, view;
      repeat split; [exact Hpolls | exact Hview]]).
Qed.

(** ** What a successful request has done *)

Lemma fetch_ok_inv (cfg : config) (env : environment) (history : json)
      (prompt_id base_url : string) (w w' : world) (out : list byte) :
  _fetch_first_image cfg env history prompt_id base_url w = (Ok out, w') ->
  exists params r,
    serve env (nreq w) (GetView (view_url base_url) params) = Answer r
    /\ (400 <=? status_code r) && (status_code r <? 600) = false
    /\ out = content r
    /\ w' = sent env (GetView (view_url base_url) params) w.
Proof.
  unfold _fetch_first_image. intros H.
  apply bind_ok in H. destruct H as (entry & w1 & H1 & H).
  apply (stateless_run _ _ _ _ (stateless_py_getitem _ _)) in H1.
  destruct H1 as (-> & _).
  apply bind_ok in H. destruct H as (outputs & w1 & H1 & H).
  apply (stateless_run _ _ _ _ (stateless_py_getitem _ _)) in H1.
  destruct H1 as (-> & _).
  apply bind_ok in H. destruct H as (node & w1 & H1 & H).
  apply (stateless_run _ _ _ _ (stateless_select_node _ _)) in H1.
  destruct H1 as (-> & _).
  apply bind_ok in H. destruct H as (found & w1 & H1 & H).
  apply (stateless_run _ _ _ _ (stateless_has_images _)) in H1.
  destruct H1 as (-> & _).
  destruct (negb found); [discriminate|].
  apply bind_ok in H. destruct H as (images & w1 & H1 & H).
  apply (stateless_run _ _ _ _ (stateless_py_getitem _ _)) in H1.
  destruct H1 as (-> & _).
  apply bind_ok in H. destruct H as (info & w1 & H1 & H).
  apply (stateless_run _ _ _ _ (stateless_py_first _)) in H1.
  destruct H1 as (-> & _).
  apply bind_ok in H. destruct H as (filename & w1 & H1 & H).
  apply (stateless_run _ _ _ _ (stateless_py_getitem _ _)) in H1.
  destruct H1 as (-> & _).
  apply bind_ok in H. destruct H as (subfolder & w1 & H1 & H).
  apply (stateless_run _ _ _ _ (stateless_py_get _ _ _)) in H1.
  destruct H1 as (-> & _).
  apply bind_ok in H. destruct H as (type & w1 & H1 & H).
  apply (stateless_run _ _ _ _ (stateless_py_get _ _ _)) in H1.
  destruct H1 as (-> & _).
  exists [("filename", filename); ("subfolder", subfolder); ("type", type)].
  unfold bind, send, raise_for_status in H.
  destruct (serve env (nreq w) _) as [msg|r] eqn:Es; [discriminate|].
  exists r.
  destruct ((400 <=? status_code r) && (status_code r <? 600));
    [discriminate|].
  injection H as <- <-. auto.
Qed.

Lemma mask_ok_inv (cfg : config) (env : environment) (fuel : nat)
      (file : list byte)
      (filename x_api_key x_comfy_url comfy_url comfy_url_query
         : option string) (w w' : world) (resp : streaming_response) :
  mask cfg env fuel file filename x_api_key x_comfy_url comfy_url
       comfy_url_query w = (Ok resp, w') ->
  exists base w1 graph graph' pid w2 hist w3 out,
    _pick_comfy_url comfy_url x_comfy_url comfy_url_query w = (Ok base, w)
    /\ _upload_to_comfy cfg env file (name_of_upload filename) base w
       = (Ok (stamp (now w) (name_of_upload filename)), w1)
    /\ bind_input cfg graph (stamp (now w) (name_of_upload filename)) w1
       = (Ok graph', w1)
    /\ _queue_prompt env graph' base w1 = (Ok pid, w2)
    /\ _poll_history cfg env fuel pid base w2 = (Ok hist, w3)
    /\ _fetch_first_image cfg env hist pid base w3 = (Ok out, w')
    /\ resp = mkStreaming out "application/octet-stream"
                          (attachment (name_of_upload filename)).
Proof.
  unfold mask. intros H.
  apply bind_ok in H. destruct H as (u & w0 & Hkey & H).
  apply require_key_world in Hkey. subst w0.
  apply bind_ok in H. destruct H as (base & w0 & Hpick & H).
  pose proof Hpick as Hp. rewrite pick_comfy_url_eq in Hp.
  injection Hp as _ <-.
  apply bind_ok in H. destruct H as (comfy & w1 & Hup & H).
  cbv zeta in Hup.
  pose proof (upload_returns_stamp _ _ _ _ _ _ _ _ Hup) as ->.
  apply bind_ok in H. destruct H as (graph & w1' & Hload & H).
  apply (stateless_run _ _ _ _ (stateless_load_workflow _ _)) in Hload.
  destruct Hload as (-> & _).
  apply bind_ok in H. destruct H as (graph' & w1' & Hbind & H).
  pose proof (stateless_run _ _ _ _ (stateless_bind_input _ _ _) Hbind)
    as (-> & _).
  apply bind_ok in H. destruct H as (pid & w2 & Hq & H).
  apply bind_ok in H. destruct H as (hist & w3 & Hpoll & H).
  apply bind_ok in H. destruct H as (out & w4 & Hfetch & H).
  injection H as <- <-.
  exists base, w1, graph, graph', pid, w2, hist, w3, out. auto 10.
Qed.

(** X17.  A successful [/mask] request has sent, in this order: the
    upload posts of the stamped file, the last of which succeeded; one
    prompt post; status requests for the job id with their sleeps; one
    download.  The graph in the prompt post holds, in the [inputs.image]
    field of the configured input node, exactly the stamped name under
    which the file was uploaded. *)
Theorem success_binds_uploaded_name (cfg : config) (env : environment)
        (fuel : nat) (file : list byte)
        (filename x_api_key x_comfy_url comfy_url comfy_url_query
           : option string) (w w' : world) (resp : streaming_response) :
  mask cfg env fuel file filename x_api_key x_comfy_url comfy_url
       comfy_url_query w = (Ok resp, w') ->
  exists base graph' prompt_id n polls params,
    let stamped := stamp (now w) (name_of_upload filename) in
    let up := PostUpload (upload_url base) stamped file in
    trace w'
    = (trace w ++ cycles n up 2000
         ++ [EReq up; EReq (PostPrompt (prompt_url base) graph')]
         ++ polls ++ [EReq (GetView (view_url base) params)])%list
    /\ (n < Z.to_nat (MAX_RETRIES cfg))%nat
    /\ poll_phase (GetHistory (history_url base prompt_id))
                  (POLL_INTERVAL_MS cfg) polls
    /\ image_of (INPUT_NODE_ID cfg) graph' = Some (JStr stamped).
Proof.
  intros H.
  destruct (mask_ok_inv _ _ _ _ _ _ _ _ _ _ _ _ H)
    as (base & w1 & graph & graph' & pid & w2 & hist & w3 & out
        & _ & Hup & Hbind & Hq & Hpoll & Hfetch & _).
  destruct (upload_outcome cfg env file (name_of_upload filename) base w)
    as (w1' & [(n & Hn & Hup' & Htr1) | (e & Hup' & _)]);
    rewrite Hup in Hup'; [injection Hup' as <- | discriminate].
  pose proof (f_equal snd Hq) as Hw2.
  rewrite queue_prompt_eq in Hw2. cbn [snd] in Hw2. subst w2.
  destruct (poll_history_trace cfg env fuel pid base
              (sent env (PostPrompt (prompt_url base) graph') w1))
    as (polls & Htr3 & Hpolls).
  rewrite Hpoll in Htr3. cbn [snd] in Htr3.
  destruct (fetch_ok_inv _ _ _ _ _ _ _ _ Hfetch)
    as (params & r & _ & _ & _ & ->).
  destruct (bind_input_ok_inv _ _ _ _ _ _ Hbind)
    as (_ & nodes & fields & -> & _ & _ & _ & ->).
  exists base,
    (bound (INPUT_NODE_ID cfg) (stamp (now w) (name_of_upload filename))
           nodes fields), pid, n, polls, params.
  cbv zeta. repeat split.
  - simpl. rewrite Htr3. simpl. rewrite Htr1.
    repeat rewrite <- app_assoc. reflexivity.
  - exact Hn.
  - exact Hpolls.
  - unfold image_of, bound. repeat rewrite lookup_store_same. reflexivity.
Qed.

(** X18.  The bytes of a successful response are the payload of the
    remote's answer to the download request, the last request sent, as
    they came: that answer had no 4xx or 5xx status, and the media type
    of the response is application/octet-stream. *)
Theorem success_returns_view_payload (cfg : config) (env : environment)
        (fuel : nat) (file : list byte)
        (filename x_api_key x_comfy_url comfy_url comfy_url_query
           : option string) (w w' : world) (resp : streaming_response) :
  mask cfg env fuel file filename x_api_key x_comfy_url comfy_url
       comfy_url_query w = (Ok resp, w') ->
  exists base params r,
    serve env (pred (nreq w')) (GetView (view_url base) params) = Answer r
    /\ (400 <=? status_code r) && (status_code r <? 600) = false
    /\ body resp = content r
    /\ media_type resp = "application/octet-stream".
Proof.
  intros H.
  destruct (mask_ok_inv _ _ _ _ _ _ _ _ _ _ _ _ H)
    as (base & w1 & graph & graph' & pid & w2 & hist & w3 & out
        & _ & _ & _ & _ & _ & Hfetch & ->).
  destruct (fetch_ok_inv _ _ _ _ _ _ _ _ Hfetch)
    as (params & r & Hs & Hst & -> & ->).
  exists base, params, r. simpl. auto.
Qed.

(** ** The further properties on sample runs *)

(** X1 on a sample: a guessed key. *)
Lemma unauthorized_request_witness :
  mask default_config (remote_with 0 done_outputs sample_nodes) 5
       sample_image (Some "cat.png") (Some "guess")
       (Some "http://h:8188/") None None start
  = (Raise unauthorized, start)
  /\ health default_config (Some "guess") (Some "http://h:8188/") None start
     = (Raise unauthorized, start).
Proof.
  apply (unauthorized_request_does_nothing
           default_config (remote_with 0 done_outputs sample_nodes) 5
           sample_image (Some "cat.png") (Some "guess")
           (Some "http://h:8188/") None None start);
    discriminate.
Defined.

(** X2 on a sample: no key against some key, the check being off. *)
Lemma empty_api_key_witness :
  mask open_config (remote_with 3 done_outputs sample_nodes) 5
       sample_image (Some "cat.png") None (Some "http://h:8188/") None
       None start
  = mask open_config (remote_with 3 done_outputs sample_nodes) 5
         sample_image (Some "cat.png") (Some "anything")
         (Some "http://h:8188/") None None start
  /\ health open_config None (Some "http://h:8188/") None start
     = health open_config (Some "anything") (Some "http://h:8188/") None
              start.
Proof.
  apply (empty_api_key_disables_check
           open_config (remote_with 3 done_outputs sample_nodes) 5
           sample_image (Some "cat.png") None (Some "anything")
           (Some "http://h:8188/") None None start).
  reflexivity.
Defined.

(** X4 on a sample. *)
Lemma picked_endpoint_witness :
  _pick_comfy_url (Some "http://h:8188/") (Some "http://other/") None start
  = (Ok "http://h:8188/", start).
Proof.
  apply (picked_endpoint_is_stable
           None (Some "http://h:8188///") None (Some "http://other/") None
           start start "http://h:8188/").
  reflexivity.
Defined.

(** X5 on a sample. *)
Lemma stamp_injective_witness : 171234 = 171234 /\ "cat.png" = "cat.png".
Proof.
  apply (stamp_injective 171234 171234 "cat.png" "cat.png"). reflexivity.
Defined.

(** X6 on a sample: a budget of zero. *)
Lemma no_budget_witness :
  _upload_to_comfy no_retry_config (remote_with 0 done_outputs sample_nodes)
                   sample_image "cat.png" sample_base start
  = (Raise (HTTPException 502 (UploadFailed None)), start).
Proof.
  apply (no_budget_no_upload
           no_retry_config (remote_with 0 done_outputs sample_nodes)
           sample_image "cat.png" sample_base start).
  simpl. lia.
Defined.

(** X8 on a sample: the remote answers with an empty document. *)
Lemma poll_not_ready_witness :
  poll_once default_config (remote_with 5 done_outputs sample_nodes)
            "abc123" sample_base start
  = (Ok None,
     sent (remote_with 5 done_outputs sample_nodes)
          (GetHistory (history_url sample_base "abc123")) start).
Proof.
  apply (proj1 (poll_not_ready_documents
                  default_config (remote_with 5 done_outputs sample_nodes)
                  "abc123" sample_base start
                  (mkResponse 200 (Some (JObj [])) []) (JObj [])
                  eq_refl eq_refl eq_refl)).
  reflexivity.
Defined.

(** X9 on a sample: a document about another job. *)
Lemma fetch_key_error_witness :
  _fetch_first_image default_config
                     (remote_with 0 done_outputs sample_nodes)
                     (JObj (status_of done_outputs)) "zzz" sample_base start
  = (Raise KeyError, start).
Proof.
  apply (proj1 (fetch_missing_entry_is_key_error
                  default_config (remote_with 0 done_outputs sample_nodes)
                  (status_of done_outputs) "zzz" sample_base start)).
  reflexivity.
Defined.

(** X10 on a sample: the remote refuses the connection. *)
Lemma poll_failure_witness :
  _poll_history default_config dead_remote 1 "abc123" sample_base start
  = (Raise (RequestError "connection refused"),
     sent dead_remote (GetHistory (history_url sample_base "abc123")) start).
Proof.
  apply (proj1 (poll_failure_is_fatal
                  default_config dead_remote 0 "abc123" sample_base start
                  ltac:(simpl; lia))).
  reflexivity.
Defined.

(** X11 on a sample: a timeout of zero. *)
Lemma no_timeout_witness :
  _poll_history no_wait_config (remote_with 0 done_outputs sample_nodes)
                1 "abc123" sample_base start
  = (Raise timed_out, start).
Proof.
  apply (no_timeout_no_poll
           no_wait_config (remote_with 0 done_outputs sample_nodes)
           0 "abc123" sample_base start).
  simpl. lia.
Defined.

(** X12 on a sample: the template bound with one name, then another. *)
Lemma rebinding_witness :
  bind_input default_config
             (bound "54" "1_dog.png" sample_nodes
                    [("class_type", JStr "LoadImage")])
             "0_cat.png" start
  = bind_input default_config (JObj sample_nodes) "0_cat.png" start.
Proof.
  apply (rebinding_overwrites
           default_config (JObj sample_nodes)
           (bound "54" "1_dog.png" sample_nodes
                  [("class_type", JStr "LoadImage")])
           "1_dog.png" "0_cat.png" start start start).
  reflexivity.
Defined.

(** X13 on a sample: the input node is an empty mapping. *)
Lemma falsy_node_witness :
  bind_input default_config (JObj [("54", JObj [])]) "0_cat.png" start
  = (Raise (HTTPException 500 (InputNodeNotFound "54")), start).
Proof.
  apply (falsy_node_counts_as_missing
           default_config [("54", JObj [])] (JObj []) "0_cat.png" start);
    [reflexivity | reflexivity | discriminate].
Defined.

(** X14 on a sample: the poll that is ready at once. *)
Lemma poll_returns_served_witness :
  exists w0 r docs e outputs,
    sent (remote_with 0 fallback_outputs sample_nodes)
         (GetHistory (history_url sample_base "abc123")) start
    = sent (remote_with 0 fallback_outputs sample_nodes)
           (GetHistory (history_url sample_base "abc123")) w0
    /\ serve (remote_with 0 fallback_outputs sample_nodes) (nreq w0)
             (GetHistory (history_url sample_base "abc123"))
       = Answer r
    /\ status_code r = 200
    /\ json_body r = Some (JObj (status_of fallback_outputs))
    /\ JObj (status_of fallback_outputs) = JObj docs
    /\ PyJson.lookup "abc123" docs = Some (JObj e)
    /\ PyJson.lookup "outputs" e = Some outputs.
Proof.
  apply (poll_returns_served_document
           default_config (remote_with 0 fallback_outputs sample_nodes)
           1 "abc123" sample_base start).
  reflexivity.
Defined.

(** X15 on the same sample: the preferred node is absent, the node "9"
    is selected, and the fetcher downloads its first image. *)
Lemma fetch_after_poll_witness :
  _poll_history default_config
                (remote_with 0 fallback_outputs sample_nodes)
                1 "abc123" sample_base start
  = (Ok (JObj (status_of fallback_outputs)),
     sent (remote_with 0 fallback_outputs sample_nodes)
          (GetHistory (history_url sample_base "abc123")) start)
  /\ exists (docs e : dict) (outputs node : json) (fields : dict)
            (images : json),
       JObj (status_of fallback_outputs) = JObj docs
       /\ PyJson.lookup "abc123" docs = Some (JObj e)
       /\ PyJson.lookup "outputs" e = Some outputs
       /\ (forall w0, select_node default_config outputs w0 = (Ok node, w0))
       /\ node = JObj fields
       /\ PyJson.lookup "images" fields = Some images
       /\ PyJson.truthy images = true.
Proof.
  assert (H : _poll_history default_config
                            (remote_with 0 fallback_outputs sample_nodes)
                            1 "abc123" sample_base start
              = (Ok (JObj (status_of fallback_outputs)),
                 sent (remote_with 0 fallback_outputs sample_nodes)
                      (GetHistory (history_url sample_base "abc123")) start))
    by reflexivity.
  split; [exact H|].
  destruct (fetch_after_poll_finds_images
              default_config (remote_with 0 fallback_outputs sample_nodes)
              1 "abc123" sample_base start _ _ H)
    as (docs & e & outputs & node & fields & images
        & H1 & H2 & H3 & H4 & H5 & H6 & H7 & _).
  exists docs, e, outputs, node, fields, images.
  repeat (split; [assumption|]). assumption.
Defined.

Lemma end_to_end_run :
  mask default_config (remote_with 3 done_outputs sample_nodes) 5
       sample_image (Some "cat.png") sample_key None
       (Some "http://h:8188//") None start
  = (Ok sample_response, sample_final_world).
Proof. vm_compute. reflexivity. Qed.

(** X17 on the end-to-end run. *)
Lemma success_binds_uploaded_name_witness :
  exists base graph' prompt_id n polls params,
    trace sample_final_world
    = (trace start
         ++ cycles n (PostUpload (upload_url base)
                                 (stamp (now start) "cat.png") sample_image)
                   2000
         ++ [EReq (PostUpload (upload_url base)
                              (stamp (now start) "cat.png") sample_image);
             EReq (PostPrompt (prompt_url base) graph')]
         ++ polls ++ [EReq (GetView (view_url base) params)])%list
    /\ (n < 3)%nat
    /\ poll_phase (GetHistory (history_url base prompt_id)) 5000 polls
    /\ image_of "54" graph' = Some (JStr (stamp (now start) "cat.png")).
Proof.
  exact (success_binds_uploaded_name
           default_config (remote_with 3 done_outputs sample_nodes) 5
           sample_image (Some "cat.png") sample_key None
           (Some "http://h:8188//") None start sample_final_world
           sample_response end_to_end_run).
Defined.

(** X18 on the end-to-end run. *)
Lemma success_returns_view_payload_witness :
  exists base params r,
    serve (remote_with 3 done_outputs sample_nodes)
          (pred (nreq sample_final_world))
          (GetView (view_url base) params) = Answer r
    /\ (400 <=? status_code r) && (status_code r <? 600) = false
    /\ body sample_response = content r
    /\ media_type sample_response = "application/octet-stream".
Proof.
  exact (success_returns_view_payload
           default_config (remote_with 3 done_outputs sample_nodes) 5
           sample_image (Some "cat.png") sample_key None
           (Some "http://h:8188//") None start sample_final_world
           sample_response end_to_end_run).
Defined.
